(** * ffmpeg-api: the request pipeline of [server.js]

    A shallow embedding of the two conversion handlers of [src/server.js]
    ([POST /convert] and [POST /convert-base64]) together with the small
    part of the JavaScript and Node.js runtime they rely on: string
    truthiness, the filename pattern [/\.(\w+)$/], property lookup on an
    object literal, the synchronous [fs] calls, [execSync] and the base64
    codec of [Buffer].  The handlers are those of lines 17-177 of the
    file. *)

From Stdlib Require Import String Ascii List ZArith NArith Lia Bool.
From Stdlib Require Strings.Byte.
From stdpp Require Import base gmap strings.
Import ListNotations.

Local Open Scope string_scope.

(** ** JavaScript values that reach the handlers *)

(** A request parameter is either absent ([undefined]) or a string.
    [js_or] is the source's [x || d]: the empty string is falsy. *)
Definition truthy (o : option string) : bool :=
  match o with
  | Some s => negb (String.eqb s "")
  | None => false
  end.

Definition js_or (o : option string) (d : string) : string :=
  match o with
  | Some s => if String.eqb s "" then d else s
  | None => d
  end.

(** A destructuring default [{ x = d }] applies to [undefined] only. *)
Definition js_default (o : option string) (d : string) : string :=
  match o with
  | Some s => s
  | None => d
  end.

(** ** The filename pattern [/\.(\w+)$/] *)

(** [\w] without the unicode flag: [A-Za-z0-9_].  Characters are 8-bit
    codes here; the pattern takes every code above 127 for a non-word
    character, as it does every UTF-16 code unit above 255. *)
Definition is_word_char (c : ascii) : bool :=
  let n := nat_of_ascii c in
  (((65 <=? n) && (n <=? 90)) || ((97 <=? n) && (n <=? 122))
   || ((48 <=? n) && (n <=? 57)) || (n =? 95))%nat.

Fixpoint all_word (s : string) : bool :=
  match s with
  | EmptyString => true
  | String c r => is_word_char c && all_word r
  end.

(** [originalname.match(/\.(\w+)$/)]: the leftmost position at which a
    dot is followed by one or more word characters up to the end of the
    input; the result is capture group 1. *)
Fixpoint match_ext (s : string) : option string :=
  match s with
  | EmptyString => None
  | String c r =>
      if Ascii.eqb c "."%char && negb (String.eqb r "") && all_word r
      then Some r
      else match_ext r
  end.

(** ** Property lookup on the object literal [mimeToExt] *)

(** The own properties of the literal, in source order. *)
Definition mimeToExt : list (string * string) :=
  [ ("audio/mpeg", "mp3");
    ("audio/mp3", "mp3");
    ("audio/wav", "wav");
    ("audio/wave", "wav");
    ("audio/x-wav", "wav");
    ("audio/ogg", "ogg");
    ("audio/flac", "flac");
    ("audio/aac", "aac");
    ("audio/mp4", "m4a");
    ("audio/x-m4a", "m4a");
    ("audio/webm", "webm");
    ("video/webm", "webm") ].

Fixpoint assoc (k : string) (l : list (string * string)) : option string :=
  match l with
  | [] => None
  | (k', v) :: r => if String.eqb k k' then Some v else assoc k r
  end.

(** [mimeToExt] is a plain object, so [mimeToExt[key]] also sees what it
    inherits from [Object.prototype]: eleven native functions and the
    accessor [__proto__]. *)
Definition object_prototype_functions : list string :=
  [ "constructor"; "__defineGetter__"; "__defineSetter__"; "hasOwnProperty";
    "__lookupGetter__"; "__lookupSetter__"; "isPrototypeOf";
    "propertyIsEnumerable"; "toString"; "valueOf"; "toLocaleString" ].

Inductive jsval : Type :=
  | JString (s : string)
  | JNative (name : string)      (* a native function of Object.prototype *)
  | JProto.                      (* Object.prototype itself *)

Definition member (k : string) (l : list string) : bool :=
  existsb (String.eqb k) l.

(** [obj[key]]: [None] is [undefined]. *)
Definition js_get (obj : list (string * string)) (key : string) : option jsval :=
  match assoc key obj with
  | Some v => Some (JString v)
  | None =>
      if member key object_prototype_functions then
        Some (JNative (if String.eqb key "constructor" then "Object" else key))
      else if String.eqb key "__proto__" then Some JProto
      else None
  end.

Definition js_truthy (v : jsval) : bool :=
  match v with
  | JString s => negb (String.eqb s "")
  | JNative _ | JProto => true
  end.

(** String conversion as V8 performs it in a template literal or in
    ['.' + v]. *)
Definition js_to_string (v : jsval) : string :=
  match v with
  | JString s => s
  | JNative name => "function " +:+ name +:+ "() { [native code] }"
  | JProto => "[object Object]"
  end.

(** ** Uploaded file and input-extension resolution *)

Definition bytes := list Byte.byte.

(** [req.file] as multer's memory storage fills it. *)
Record UploadedFile := {
  originalname : option string;
  mimetype : option string;
  buffer : bytes
}.

Definition file_size (f : UploadedFile) : nat := length (buffer f).

(** Lines 31-52 of [server.js]. *)
Definition resolveInputExt (f : UploadedFile) : jsval :=
  let inputExt :=
    if truthy (originalname f) then
      match match_ext (js_or (originalname f) "") with
      | Some e => e
      | None => ""
      end
    else "" in
  if negb (js_truthy (JString inputExt)) && truthy (mimetype f) then
    match js_get mimeToExt (js_or (mimetype f) "") with
    | Some v => if js_truthy v then v else JString ""
    | None => JString ""
    end
  else JString inputExt.

(** ** The base64 codec of Node's [Buffer] *)

(** [buf.toString('base64')] writes the RFC 4648 alphabet with [=]
    padding; [Buffer.from(s, 'base64')] reads leniently: it also takes
    the URL-safe [-] and [_], skips every character outside the
    alphabet, and stops at the first [=]. *)
Definition base64_alphabet : string :=
  "ABCDEFGHIJKLMNOPQRSTUVWXYZabcdefghijklmnopqrstuvwxyz0123456789+/".

Definition base64_char (n : N) : ascii :=
  match String.get (N.to_nat n) base64_alphabet with
  | Some c => c
  | None => "="%char
  end.

Definition unbase64 (c : ascii) : option N :=
  let n := N_of_ascii c in
  (if (65 <=? n) && (n <=? 90) then Some (n - 65)
   else if (97 <=? n) && (n <=? 122) then Some (n - 71)
   else if (48 <=? n) && (n <=? 57) then Some (n + 4)
   else if (n =? 43) || (n =? 45) then Some 62
   else if (n =? 47) || (n =? 95) then Some 63
   else None)%N.

Definition byte_of_N (n : N) : Byte.byte :=
  match Byte.of_N (n mod 256) with
  | Some b => b
  | None => Byte.x00
  end.

Definition enc0 (a : Byte.byte) : N := N.shiftr (Byte.to_N a) 2.
Definition enc1 (a b : Byte.byte) : N :=
  N.lor (N.shiftl (N.land (Byte.to_N a) 3) 4) (N.shiftr (Byte.to_N b) 4).
Definition enc2 (b c : Byte.byte) : N :=
  N.lor (N.shiftl (N.land (Byte.to_N b) 15) 2) (N.shiftr (Byte.to_N c) 6).
Definition enc3 (c : Byte.byte) : N := N.land (Byte.to_N c) 63.

Fixpoint base64_encode (l : bytes) : string :=
  match l with
  | [] => ""
  | [a] =>
      String (base64_char (enc0 a))
        (String (base64_char (enc1 a Byte.x00)) "==")
  | [a; b] =>
      String (base64_char (enc0 a))
        (String (base64_char (enc1 a b))
           (String (base64_char (enc2 b Byte.x00)) "="))
  | a :: b :: c :: r =>
      String (base64_char (enc0 a))
        (String (base64_char (enc1 a b))
           (String (base64_char (enc2 b c))
              (String (base64_char (enc3 c)) (base64_encode r))))
  end.

(** The legal characters of the input, as 6-bit values, up to the
    first [=]. *)
Fixpoint base64_sextets (s : string) : list N :=
  match s with
  | EmptyString => []
  | String c r =>
      if Ascii.eqb c "="%char then []
      else match unbase64 c with
           | Some n => n :: base64_sextets r
           | None => base64_sextets r
           end
  end.

Definition dec0 (h l : N) : Byte.byte :=
  byte_of_N (N.lor (N.shiftl (N.land h 63) 2) (N.shiftr (N.land l 48) 4)).
Definition dec1 (h l : N) : Byte.byte :=
  byte_of_N (N.lor (N.shiftl (N.land h 15) 4) (N.shiftr (N.land l 60) 2)).
Definition dec2 (h l : N) : Byte.byte :=
  byte_of_N (N.lor (N.shiftl (N.land h 3) 6) (N.land l 63)).

Fixpoint base64_bytes (l : list N) : bytes :=
  match l with
  | a :: b :: c :: d :: r => dec0 a b :: dec1 b c :: dec2 c d :: base64_bytes r
  | [a; b; c] => [dec0 a b; dec1 b c]
  | [a; b] => [dec0 a b]
  | _ => []
  end.

Definition base64_decode (s : string) : bytes := base64_bytes (base64_sextets s).

Definition bytes_of_string (s : string) : bytes :=
  map (fun c => byte_of_N (N_of_ascii c)) (list_ascii_of_string s).

(** ** The scratch directory, the host and the effect monad *)

(** A thrown [Error]: every error has a [message]; the one [execSync]
    throws also carries the captured [stderr]. *)
Record JsError := { message : string; stderr : option string }.

(** What the process cannot decide for itself: the external tool run by
    [execSync] (an opaque, deterministic function of the command line and
    the files it finds; [None] is exit status 0), and whether the
    operating system refuses a write or a deletion. *)
Record Host := {
  exec : string -> gmap string bytes -> option JsError * gmap string bytes;
  write_error : string -> bytes -> gmap string bytes -> option JsError;
  unlink_error : string -> gmap string bytes -> option JsError
}.

(** The calls a handler makes, in order. *)
Inductive Event : Type :=
  | EvWriteFile (path : string) (data : bytes)
  | EvExec (cmd : string)
  | EvReadFile (path : string)
  | EvUnlink (path : string).

Record World := { files : gmap string bytes; calls : list Event }.

Definition record (e : Event) (w : World) : World :=
  {| files := files w; calls := calls w ++ [e] |}.

Definition with_files (fs : gmap string bytes) (w : World) : World :=
  {| files := fs; calls := calls w |}.

Inductive Outcome (A : Type) : Type :=
  | Return (a : A)
  | Throw (e : JsError).
Arguments Return {A} a.
Arguments Throw {A} e.

Definition M (A : Type) : Type := World -> Outcome A * World.

Definition ret {A} (a : A) : M A := fun w => (Return a, w).

Definition bind {A B} (m : M A) (k : A -> M B) : M B :=
  fun w =>
    match m w with
    | (Return a, w') => k a w'
    | (Throw e, w') => (Throw e, w')
    end.

Notation "x <- m ;; k" := (bind m (fun x => k))
  (at level 100, m at next level, right associativity).
Notation "m ;;; k" := (bind m (fun _ => k))
  (at level 100, right associativity).

(** [try { m } catch (e) { h e }] *)
Definition try_catch {A} (m : M A) (h : JsError -> M A) : M A :=
  fun w =>
    match m w with
    | (Return a, w') => (Return a, w')
    | (Throw e, w') => h e w'
    end.

(** [try { m } finally { f }]: [f] runs on every exit of [m]; an
    exception leaving [f] replaces the outcome of [m]. *)
Definition try_finally {A} (m : M A) (f : M unit) : M A :=
  fun w =>
    match m w with
    | (r, w') =>
        match f w' with
        | (Return _, w'') => (r, w'')
        | (Throw e, w'') => (Throw e, w'')
        end
    end.

Definition enoent (syscall path : string) : JsError :=
  {| message := "ENOENT: no such file or directory, " +:+ syscall +:+ " '" +:+ path +:+ "'";
     stderr := None |}.

Section Fs.
Variable host : Host.

Definition writeFileSync (path : string) (data : bytes) : M unit :=
  fun w =>
    let w := record (EvWriteFile path data) w in
    match write_error host path data (files w) with
    | Some e => (Throw e, w)
    | None => (Return tt, with_files (<[path := data]> (files w)) w)
    end.

Definition readFileSync (path : string) : M bytes :=
  fun w =>
    let w := record (EvReadFile path) w in
    match files w !! path with
    | Some d => (Return d, w)
    | None => (Throw (enoent "open" path), w)
    end.

Definition existsSync (path : string) : M bool :=
  fun w => (Return (bool_decide (is_Some (files w !! path))), w).

Definition unlinkSync (path : string) : M unit :=
  fun w =>
    let w := record (EvUnlink path) w in
    match files w !! path with
    | None => (Throw (enoent "unlink" path), w)
    | Some _ =>
        match unlink_error host path (files w) with
        | Some e => (Throw e, w)
        | None => (Return tt, with_files (delete path (files w)) w)
        end
    end.

Definition execSync (cmd : string) : M unit :=
  fun w =>
    let w := record (EvExec cmd) w in
    match exec host cmd (files w) with
    | (None, fs) => (Return tt, with_files fs w)
    | (Some e, fs) => (Throw e, with_files fs w)
    end.

(** The [finally] block shared by both handlers (lines 121-126 and
    172-175); the caught cleanup error is only logged. *)
Definition cleanup (inputPath outputPath : string) : M unit :=
  try_catch
    (e1 <- existsSync inputPath ;;
     (if e1 : bool then unlinkSync inputPath else ret tt) ;;;
     e2 <- existsSync outputPath ;;
     if e2 : bool then unlinkSync outputPath else ret tt)
    (fun _ => ret tt).
End Fs.

(** ** Requests and responses *)

(** What [/convert] reads of a request.  A query parameter is absent or
    a string (a repeated or bracketed parameter, which the query parser
    turns into an array or an object, is outside this model). *)
Record ConvertRequest := {
  query_format : option string;      (* req.query.format *)
  query_bitrate : option string;     (* req.query.bitrate *)
  file : option UploadedFile         (* req.file *)
}.

(** What [/convert-base64] reads of [req.body], the object
    [express.json()] parsed: each field is absent or a string (other JSON
    values are outside this model). *)
Record Base64Request := {
  body_audio : option string;        (* req.body.audio *)
  body_format : option string;       (* req.body.format *)
  body_bitrate : option string       (* req.body.bitrate *)
}.

Inductive Body : Type :=
  | ErrorJson (error : string)
  | ErrorDetailsJson (error details : string)
  | ConversionFailedJson (details : string)
      (originalName mimetype : option string) (size : nat)
  | AudioBody (contentType : string) (contentLength : nat) (data : bytes)
  | AudioJson (audio format : string) (size : nat).

Record Response := { status : nat; body : Body }.

(** ** Static tables *)

Definition supported_formats : list string := ["ogg"; "mp3"; "opus"; "m4a"; "aac"].

Definition invalid_format_message : string :=
  "Invalid format. Supported: ogg, mp3, opus, m4a, aac".

(** The [switch] of [/convert], lines 61-77. *)
Definition codecArgs (format bitrate : string) : string :=
  if String.eqb format "mp3" then "-c:a libmp3lame -b:a " +:+ bitrate
  else if String.eqb format "ogg" then "-c:a libvorbis -b:a " +:+ bitrate
  else if String.eqb format "opus" then "-c:a libopus -b:a " +:+ bitrate
  else if String.eqb format "m4a" || String.eqb format "aac"
       then "-c:a aac -b:a " +:+ bitrate
  else "-c:a libvorbis -b:a " +:+ bitrate.

(** The [switch] of [/convert-base64], lines 146-155. *)
Definition codecArgs_base64 (format bitrate : string) : string :=
  if String.eqb format "mp3" then "-c:a libmp3lame -b:a " +:+ bitrate
  else if String.eqb format "ogg" then "-c:a libvorbis -b:a " +:+ bitrate
  else "-c:a libvorbis -b:a " +:+ bitrate.

Definition contentTypes : list (string * string) :=
  [ ("mp3", "audio/mpeg");
    ("ogg", "audio/ogg");
    ("opus", "audio/opus");
    ("m4a", "audio/mp4");
    ("aac", "audio/aac") ].

(** [contentTypes[format] || 'audio/ogg'] *)
Definition contentType (format : string) : string :=
  match js_get contentTypes format with
  | Some v => if js_truthy v then js_to_string v else "audio/ogg"
  | None => "audio/ogg"
  end.

(** ** Temp file naming *)

(** Line 54: [`/tmp/${tempId}_input${inputExt ? '.' + inputExt : ''}`]. *)
Definition convert_inputPath (tempId : string) (inputExt : jsval) : string :=
  "/tmp/" +:+ tempId +:+ "_input"
  +:+ (if js_truthy inputExt then "." +:+ js_to_string inputExt else "").

(** Line 138: [`/tmp/${tempId}_input`]. *)
Definition base64_inputPath (tempId : string) : string :=
  "/tmp/" +:+ tempId +:+ "_input".

(** Lines 55 and 139: [`/tmp/${tempId}_output.${format}`]. *)
Definition outputPath (tempId format : string) : string :=
  "/tmp/" +:+ tempId +:+ "_output." +:+ format.

(** The double-quote character of the command template. *)
Definition dquote : string := String (ascii_of_nat 34) "".

(** Line 79: the paths are wrapped in double quotes. *)
Definition convert_cmd (inputPath args outputPath : string) : string :=
  "ffmpeg -i " +:+ dquote +:+ inputPath +:+ dquote +:+ " " +:+ args
  +:+ " -y " +:+ dquote +:+ outputPath +:+ dquote.

(** Line 157: the paths are spliced in bare. *)
Definition base64_cmd (inputPath args outputPath : string) : string :=
  "ffmpeg -i " +:+ inputPath +:+ " " +:+ args +:+ " -y " +:+ outputPath.

(** ** The handlers *)

(** Console output is not part of the model.  [tempId] is the value
    [uuidv4()] returns for this request. *)
Section Handlers.
Variable host : Host.

(** The [try { ... } catch (error) { ... }] of [/convert], lines 57-119. *)
Definition convert_try (f : UploadedFile) (format bitrate inputPath outputPath : string)
    : M Response :=
  try_catch
    (writeFileSync host inputPath (buffer f) ;;;
     let cmd := convert_cmd inputPath (codecArgs format bitrate) outputPath in
     failed <- try_catch
       (execSync host cmd ;;; ret None)
       (fun ffmpegError =>
          ret (Some {| status := 500;
                       body := ConversionFailedJson
                                 (js_or (stderr ffmpegError) (message ffmpegError))
                                 (originalname f) (mimetype f) (file_size f) |})) ;;
     match failed with
     | Some response => ret response
     | None =>
         convertedBuffer <- readFileSync outputPath ;;
         ret {| status := 200;
                body := AudioBody (contentType format)
                          (length convertedBuffer) convertedBuffer |}
     end)
    (fun error =>
       ret {| status := 500;
              body := ErrorDetailsJson "Server error" (message error) |}).

(** [app.post('/convert', ...)], lines 17-128. *)
Definition convert (req : ConvertRequest) (tempId : string) : M Response :=
  let format := js_or (query_format req) "ogg" in
  let bitrate := js_or (query_bitrate req) "128k" in
  if negb (member format supported_formats) then
    ret {| status := 400; body := ErrorJson invalid_format_message |}
  else
    match file req with
    | None => ret {| status := 400; body := ErrorJson "No audio file provided" |}
    | Some f =>
        let inputExt := resolveInputExt f in
        let inputPath := convert_inputPath tempId inputExt in
        let outputPath := outputPath tempId format in
        try_finally
          (convert_try f format bitrate inputPath outputPath)
          (cleanup host inputPath outputPath)
    end.

(** The [try { ... } catch (error) { ... }] of [/convert-base64],
    lines 141-170. *)
Definition convert_base64_try (audio format bitrate inputPath outputPath : string)
    : M Response :=
  try_catch
    (let inputBuffer := base64_decode audio in
     writeFileSync host inputPath inputBuffer ;;;
     execSync host
       (base64_cmd inputPath (codecArgs_base64 format bitrate) outputPath) ;;;
     convertedBuffer <- readFileSync outputPath ;;
     ret {| status := 200;
            body := AudioJson (base64_encode convertedBuffer) format
                      (length convertedBuffer) |})
    (fun error => ret {| status := 500; body := ErrorJson (message error) |}).

(** [app.post('/convert-base64', ...)], lines 130-177. *)
Definition convert_base64 (req : Base64Request) (tempId : string) : M Response :=
  let format := js_default (body_format req) "ogg" in
  let bitrate := js_default (body_bitrate req) "128k" in
  if negb (truthy (body_audio req)) then
    ret {| status := 400; body := ErrorJson "No audio data provided" |}
  else
    let audio := js_or (body_audio req) "" in
    let inputPath := base64_inputPath tempId in
    let outputPath := outputPath tempId format in
    try_finally
      (convert_base64_try audio format bitrate inputPath outputPath)
      (cleanup host inputPath outputPath).
End Handlers.

Definition start (fs : gmap string bytes) : World := {| files := fs; calls := [] |}.

(** ** Concrete hosts used to run the handlers *)

(** A tool given by a table: a listed command line writes the listed
    bytes to the listed path and exits 0; any other command line fails. *)
Fixpoint table_tool (table : list (string * (string * bytes)))
    (cmd : string) (fs : gmap string bytes) : option JsError * gmap string bytes :=
  match table with
  | [] => (Some {| message := "Command failed: " +:+ cmd;
                   stderr := Some "Conversion failed!" |}, fs)
  | (c, (path, data)) :: rest =>
      if String.eqb cmd c then (None, <[path := data]> fs)
      else table_tool rest cmd fs
  end.

(** A host on which every write and every deletion succeeds. *)
Definition table_host (table : list (string * (string * bytes))) : Host :=
  {| exec := table_tool table;
     write_error := fun _ _ _ => None;
     unlink_error := fun _ _ => None |}.

Definition eperm (path : string) : JsError :=
  {| message := "EPERM: operation not permitted, unlink '" +:+ path +:+ "'";
     stderr := None |}.

(** The same host, except that the operating system refuses every
    deletion. *)
Definition readonly_host (table : list (string * (string * bytes))) : Host :=
  {| exec := table_tool table;
     write_error := fun _ _ _ => None;
     unlink_error := fun path _ => Some (eperm path) |}.

Definition id1 : string := "3b241101-e2bb-4255-8caf-4136c566a962".
Definition id2 : string := "9f0c6d2e-7a41-4c58-b3de-0a1b2c3d4e5f".

Definition sample_audio : bytes := bytes_of_string "RIFF".

Definition upload : UploadedFile :=
  {| originalname := Some "voice.wav"; mimetype := Some "audio/wav";
     buffer := sample_audio |}.

(** [POST /convert?format=wav] with no file attached. *)
Definition wav_without_file : ConvertRequest :=
  {| query_format := Some "wav"; query_bitrate := None; file := None |}.

(** [POST /convert?format=opus&bitrate=96k] with a file. *)
Definition opus_upload : ConvertRequest :=
  {| query_format := Some "opus"; query_bitrate := Some "96k"; file := Some upload |}.

(** [POST /convert-base64] with the same bytes, format and bitrate. *)
Definition opus_base64 : Base64Request :=
  {| body_audio := Some (base64_encode sample_audio);
     body_format := Some "opus"; body_bitrate := Some "96k" |}.

(** [POST /convert-base64] asking for [wav]. *)
Definition wav_base64 : Base64Request :=
  {| body_audio := Some (base64_encode sample_audio);
     body_format := Some "wav"; body_bitrate := None |}.

(** [POST /convert-base64] with text that is no base64 at all. *)
Definition garbage_base64 : Base64Request :=
  {| body_audio := Some "%%%%"; body_format := None; body_bitrate := None |}.

Definition opus_bytes : bytes := bytes_of_string "OpusHead".
Definition vorbis_bytes : bytes := bytes_of_string "vorbis".

(** A tool that encodes with the encoder named on its command line: the
    three command lines the requests above produce. *)
Definition encoder_table : list (string * (string * bytes)) :=
  [ (convert_cmd (convert_inputPath id1 (JString "wav"))
       "-c:a libopus -b:a 96k" (outputPath id1 "opus"),
     (outputPath id1 "opus", opus_bytes));
    (base64_cmd (base64_inputPath id2)
       "-c:a libvorbis -b:a 96k" (outputPath id2 "opus"),
     (outputPath id2 "opus", vorbis_bytes));
    (base64_cmd (base64_inputPath id1)
       "-c:a libvorbis -b:a 128k" (outputPath id1 "wav"),
     (outputPath id1 "wav", vorbis_bytes)) ].

(** ** Generated identifiers and the paths of a request *)

(** [uuidv4()] of the [uuid] package returns the canonical text form of a
    version-4 UUID: 36 characters, lower-case hexadecimal digits in groups
    of 8-4-4-4-12 separated by hyphens, version digit 4, variant digit
    among 8, 9, a, b. *)
Definition is_hex (c : ascii) : bool :=
  let n := nat_of_ascii c in
  (((48 <=? n) && (n <=? 57)) || ((97 <=? n) && (n <=? 102)))%nat.

Fixpoint uuid_from (i : nat) (s : string) : bool :=
  match s with
  | EmptyString => (i =? 36)%nat
  | String c r =>
      (if ((i =? 8) || (i =? 13) || (i =? 18) || (i =? 23))%nat then Ascii.eqb c "-"%char
       else if (i =? 14)%nat then Ascii.eqb c "4"%char
       else if (i =? 19)%nat then
         Ascii.eqb c "8"%char || Ascii.eqb c "9"%char
         || Ascii.eqb c "a"%char || Ascii.eqb c "b"%char
       else is_hex c)
      && uuid_from (S i) r
  end.

Definition is_uuid (s : string) : bool := uuid_from 0 s.

Inductive Request : Type :=
  | ToConvert (req : ConvertRequest)
  | ToBase64 (req : Base64Request).

(** The input and output path a request works on; [None] when the
    handler answers before it names any file. *)
Definition temp_paths (r : Request) (tempId : string) : option (string * string) :=
  match r with
  | ToConvert req =>
      let format := js_or (query_format req) "ogg" in
      if negb (member format supported_formats) then None
      else match file req with
           | None => None
           | Some f =>
               Some (convert_inputPath tempId (resolveInputExt f),
                     outputPath tempId format)
           end
  | ToBase64 req =>
      if negb (truthy (body_audio req)) then None
      else Some (base64_inputPath tempId,
                 outputPath tempId (js_default (body_format req) "ogg"))
  end.

Definition handle (host : Host) (r : Request) (tempId : string) : M Response :=
  match r with
  | ToConvert req => convert host req tempId
  | ToBase64 req => convert_base64 host req tempId
  end.

(** A host that differs from [h] only in which deletions fail. *)
Definition with_unlink_error (h : Host)
    (u : string -> gmap string bytes -> option JsError) : Host :=
  {| exec := exec h; write_error := write_error h; unlink_error := u |}.

(** A declared MIME type has the form [type/subtype]. *)
Fixpoint has_slash (s : string) : bool :=
  match s with
  | EmptyString => false
  | String c r => Ascii.eqb c "/"%char || has_slash r
  end.

(** A filename [stem ++ "." ++ ext] whose extension is a non-empty run of
    word characters. *)
Definition has_extension (name ext : string) : Prop :=
  exists stem, name = stem +:+ "." +:+ ext /\ ext <> "" /\ all_word ext = true.

(** ** Observations on a run *)

(** The response a run sends, if the handler returns. *)
Definition response {A} (r : Outcome A * World) : option A :=
  match fst r with
  | Return a => Some a
  | Throw _ => None
  end.

(** The path a file-system call names. *)
Definition event_path (e : Event) : option string :=
  match e with
  | EvWriteFile p _ | EvReadFile p | EvUnlink p => Some p
  | EvExec _ => None
  end.

Definition encoders : list string := ["libmp3lame"; "libvorbis"; "libopus"; "aac"].



(** The 256 bytes, for exhaustive checks of the bit arithmetic. *)
Definition all_bytes : bytes := map byte_of_N (map N.of_nat (seq 0 256)).

Definition for_all_bytes (P : Byte.byte -> bool) : bool := forallb P all_bytes.

(** ** The older [/convert] of the same file *)

(** Lines 202-274: the earlier revision of the handler.  It never looks
    at the upload's name or MIME type, splices the paths in bare, appends
    a redirection of the error stream, and reports only the error message
    when the tool fails. *)
Definition convert_v2_cmd (inputPath args outputPath : string) : string :=
  "ffmpeg -i " +:+ inputPath +:+ " " +:+ args +:+ " -y " +:+ outputPath +:+ " 2>&1".

Definition convert_v2_try (host : Host) (f : UploadedFile)
    (format bitrate inputPath outputPath : string) : M Response :=
  try_catch
    (writeFileSync host inputPath (buffer f) ;;;
     let cmd := convert_v2_cmd inputPath (codecArgs format bitrate) outputPath in
     failed <- try_catch
       (execSync host cmd ;;; ret None)
       (fun ffmpegError =>
          ret (Some {| status := 500;
                       body := ErrorDetailsJson "Conversion failed"
                                 (message ffmpegError) |})) ;;
     match failed with
     | Some response => ret response
     | None =>
         convertedBuffer <- readFileSync outputPath ;;
         ret {| status := 200;
                body := AudioBody (contentType format)
                          (length convertedBuffer) convertedBuffer |}
     end)
    (fun error =>
       ret {| status := 500;
              body := ErrorDetailsJson "Server error" (message error) |}).

Definition convert_v2 (host : Host) (req : ConvertRequest) (tempId : string)
    : M Response :=
  let format := js_or (query_format req) "ogg" in
  let bitrate := js_or (query_bitrate req) "128k" in
  if negb (member format supported_formats) then
    ret {| status := 400; body := ErrorJson invalid_format_message |}
  else
    match file req with
    | None => ret {| status := 400; body := ErrorJson "No audio file provided" |}
    | Some f =>
        let inputPath := base64_inputPath tempId in
        let outputPath := outputPath tempId format in
        try_finally
          (convert_v2_try host f format bitrate inputPath outputPath)
          (cleanup host inputPath outputPath)
    end.

(** ** Further hosts *)

(** A host whose tool exits 0 without writing anything. *)
Definition silent_host : Host :=
  {| exec := fun _ fs => (None, fs);
     write_error := fun _ _ _ => None;
     unlink_error := fun _ _ => None |}.

(** A host that refuses to delete one path and nothing else. *)
Definition locked_host (table : list (string * (string * bytes))) (locked : string)
    : Host :=
  {| exec := table_tool table;
     write_error := fun _ _ _ => None;
     unlink_error := fun path _ =>
       if String.eqb path locked then Some (eperm path) else None |}.

(** ** Filenames *)

Fixpoint has_dot (s : string) : bool :=
  match s with
  | EmptyString => false
  | String c r => Ascii.eqb c "."%char || has_dot r
  end.

(** ** Strings with code units above 255 *)

(** A JavaScript string is a sequence of UTF-16 code units, here numbers
    below 65536.  [Buffer.from(s, 'base64')] reads each code unit through
    its low byte: the decoder casts it to an 8-bit value before it looks it
    up, so a code unit above 255 is decoded as the character its low byte
    stands for. *)
Definition low_byte (u : N) : ascii := ascii_of_N (N.land u 255).

Fixpoint low_bytes (s : list N) : string :=
  match s with
  | [] => ""
  | u :: r => String (low_byte u) (low_bytes r)
  end.

Definition Buffer_from_base64 (s : list N) : bytes := base64_decode (low_bytes s).

(** The code units of a string of 8-bit characters. *)
Fixpoint code_units (s : string) : list N :=
  match s with
  | EmptyString => []
  | String c r => N_of_ascii c :: code_units r
  end.



(** [req.body] of [/convert-base64] with [audio] as the string of code
    units the JSON parser delivers. *)
Record Base64Body := {
  audio_units : option (list N);     (* req.body.audio *)
  format_field : option string;      (* req.body.format *)
  bitrate_field : option string      (* req.body.bitrate *)
}.

(** [!audio] is false for a non-empty string. *)
Definition units_truthy (o : option (list N)) : bool :=
  match o with
  | Some (_ :: _) => true
  | _ => false
  end.

(** Lines 141-170, with [audio] a string of code units. *)
Definition convert_base64_units_try (host : Host) (audio : list N)
    (format bitrate inputPath outputPath : string) : M Response :=
  try_catch
    (let inputBuffer := Buffer_from_base64 audio in
     writeFileSync host inputPath inputBuffer ;;;
     execSync host
       (base64_cmd inputPath (codecArgs_base64 format bitrate) outputPath) ;;;
     convertedBuffer <- readFileSync outputPath ;;
     ret {| status := 200;
            body := AudioJson (base64_encode convertedBuffer) format
                      (length convertedBuffer) |})
    (fun error => ret {| status := 500; body := ErrorJson (message error) |}).

(** Lines 130-177, with [audio] a string of code units. *)
Definition convert_base64_units (host : Host) (req : Base64Body) (tempId : string)
    : M Response :=
  let format := js_default (format_field req) "ogg" in
  let bitrate := js_default (bitrate_field req) "128k" in
  if negb (units_truthy (audio_units req)) then
    ret {| status := 400; body := ErrorJson "No audio data provided" |}
  else
    let audio := match audio_units req with Some s => s | None => [] end in
    let inputPath := base64_inputPath tempId in
    let outputPath := outputPath tempId format in
    try_finally
      (convert_base64_units_try host audio format bitrate inputPath outputPath)
      (cleanup host inputPath outputPath).

(** The request of 8-bit characters the decoder in effect sees, and the
    request of code units an 8-bit request stands for. *)
Definition narrow (req : Base64Body) : Base64Request :=
  {| body_audio := option_map low_bytes (audio_units req);
     body_format := format_field req;
     body_bitrate := bitrate_field req |}.

Definition widen (req : Base64Request) : Base64Body :=
  {| audio_units := option_map code_units (body_audio req);
     format_field := body_format req;
     bitrate_field := body_bitrate req |}.


(** * Properties *)

(** ** The model on concrete inputs *)

Example resolve_mp3 :
  resolveInputExt {| originalname := None; mimetype := Some "audio/mpeg"; buffer := [] |}
  = JString "mp3".
Proof. reflexivity. Qed.

Example resolve_name :
  resolveInputExt {| originalname := Some "take.1.WAV"; mimetype := Some "audio/mpeg"; buffer := [] |}
  = JString "WAV".
Proof. reflexivity. Qed.

Example base64_encode_hello :
  base64_encode (bytes_of_string "hello") = "aGVsbG8=".
Proof. reflexivity. Qed.

Example base64_decode_hello :
  base64_decode "aGV sb*G8=zz" = bytes_of_string "hello".
Proof. reflexivity. Qed.

(** ** Strings *)

Lemma append_cons (c : ascii) (a b : string) : String c a +:+ b = String c (a +:+ b).
Proof. reflexivity. Qed.

Lemma append_empty_l (a : string) : "" +:+ a = a.
Proof. reflexivity. Qed.

Lemma append_nil_r (a : string) : a +:+ "" = a.
Proof.
  induction a as [|x a IH]; [reflexivity |].
  rewrite append_cons. f_equal. exact IH.
Qed.

(** Two concatenations with prefixes of the same length agree only if the
    prefixes and the remainders agree. *)
Lemma append_same_length (a b x y : string) :
  String.length a = String.length b -> a +:+ x = b +:+ y -> a = b /\ x = y.
Proof.
  revert b. induction a as [|c a IH]; intros [|d b] Hlen Heq;
    try discriminate Hlen.
  - now split.
  - rewrite !append_cons in Heq. injection Heq as -> Heq.
    injection Hlen as Hlen.
    destruct (IH b Hlen Heq) as [-> ->]. now split.
Qed.

(** ** The filename pattern *)

Lemma all_word_dot (a b : string) : all_word (a +:+ "." +:+ b) = false.
Proof.
  induction a as [|c a IH].
  - reflexivity.
  - rewrite append_cons. simpl. rewrite IH. apply andb_false_r.
Qed.

Lemma match_ext_sound (s e : string) : match_ext s = Some e -> has_extension s e.
Proof.
  induction s as [|c r IH]; simpl; [discriminate|].
  destruct (Ascii.eqb c "." && negb (String.eqb r "") && all_word r)%bool eqn:E.
  - intros [= <-].
    apply andb_prop in E as [E Hw]. apply andb_prop in E as [Hc Hne].
    apply Ascii.eqb_eq in Hc as ->.
    exists "". repeat split; [| exact Hw].
    intros ->. discriminate.
  - intros H. destruct (IH H) as (stem & -> & Hne & Hw).
    exists (String c stem). now repeat split.
Qed.

Lemma match_ext_complete (s e : string) : has_extension s e -> match_ext s = Some e.
Proof.
  intros (stem & -> & Hne & Hw). induction stem as [|c stem IH].
  - rewrite append_empty_l. change ("." +:+ e) with (String "." e). simpl.
    rewrite Hw. destruct e; [contradiction | reflexivity].
  - rewrite append_cons. simpl. rewrite IH, all_word_dot.
    now rewrite andb_false_r.
Qed.

(** ** The MIME table *)

Lemma mimeToExt_values_truthy (m e : string) :
  assoc m mimeToExt = Some e -> String.eqb e "" = false.
Proof.
  unfold mimeToExt; simpl.
  repeat (destruct (String.eqb m _); [now intros [= <-] |]).
  discriminate.
Qed.

Lemma slash_not_inherited (m : string) :
  has_slash m = true ->
  member m object_prototype_functions = false /\ String.eqb m "__proto__" = false.
Proof.
  intros H. split.
  - destruct (member m object_prototype_functions) eqn:E; [| reflexivity].
    unfold member in E. apply existsb_exists in E as (k & Hin & Hk).
    apply String.eqb_eq in Hk as ->.
    simpl in Hin. repeat destruct Hin as [<- | Hin]; try discriminate; contradiction.
  - destruct (String.eqb_spec m "__proto__") as [-> |]; [discriminate | reflexivity].
Qed.

Lemma js_get_mime_unknown (m : string) :
  has_slash m = true -> assoc m mimeToExt = None -> js_get mimeToExt m = None.
Proof.
  intros Hs Hn. unfold js_get. rewrite Hn.
  destruct (slash_not_inherited m Hs) as [-> ->]. reflexivity.
Qed.

(** ** Input-extension resolution *)

Lemma resolve_with_extension (f : UploadedFile) (name ext : string) :
  originalname f = Some name -> has_extension name ext ->
  resolveInputExt f = JString ext.
Proof.
  intros Hn Hext. unfold resolveInputExt. rewrite Hn.
  pose proof (match_ext_complete _ _ Hext) as Hm.
  destruct Hext as (stem & -> & Hne & _).
  assert (Hname : String.eqb (stem +:+ "." +:+ ext) "" = false)
    by (destruct stem; reflexivity).
  unfold truthy, js_or. rewrite Hname. simpl negb. cbv iota. rewrite Hm.
  destruct ext as [|c e]; [contradiction | reflexivity].
Qed.

Lemma resolve_without_extension (f : UploadedFile) :
  (forall name e, originalname f = Some name -> ~ has_extension name e) ->
  resolveInputExt f =
    if truthy (mimetype f) then
      match js_get mimeToExt (js_or (mimetype f) "") with
      | Some v => if js_truthy v then v else JString ""
      | None => JString ""
      end
    else JString "".
Proof.
  intros Hno. unfold resolveInputExt.
  assert (E : (if truthy (originalname f)
               then match match_ext (js_or (originalname f) "") with
                    | Some e => e
                    | None => ""
                    end
               else "") = "").
  { destruct (originalname f) as [name|] eqn:Hn; [| reflexivity].
    unfold truthy, js_or.
    destruct (String.eqb name ""); [reflexivity |]. simpl negb. cbv iota.
    destruct (match_ext name) as [e|] eqn:Hm; [| reflexivity].
    exfalso. exact (Hno name e eq_refl (match_ext_sound _ _ Hm)). }
  rewrite E. reflexivity.
Qed.

(** C6: input-extension resolution is a total function that follows the
    order filename extension, then MIME table, then empty: (1) a trailing
    filename extension wins; (2) without one, a MIME type listed in the
    table gives the table's extension; (3) in particular [audio/mpeg] with
    no filename gives [mp3]; (4) a MIME type [type/subtype] that is not
    listed, with no filename, gives the empty extension; (5) so does a file
    with neither filename nor MIME type; (6) for every file whose MIME
    type, if any, has the form [type/subtype], the result is a string. *)
Theorem input_extension_resolution :
  (forall f name ext,
      originalname f = Some name -> has_extension name ext ->
      resolveInputExt f = JString ext)
  /\ (forall f m ext,
      (forall name e, originalname f = Some name -> ~ has_extension name e) ->
      mimetype f = Some m -> assoc m mimeToExt = Some ext ->
      resolveInputExt f = JString ext)
  /\ (forall f,
      originalname f = None -> mimetype f = Some "audio/mpeg" ->
      resolveInputExt f = JString "mp3")
  /\ (forall f m,
      originalname f = None -> mimetype f = Some m ->
      has_slash m = true -> assoc m mimeToExt = None ->
      resolveInputExt f = JString "")
  /\ (forall f,
      originalname f = None -> mimetype f = None ->
      resolveInputExt f = JString "")
  /\ (forall f,
      (forall m, mimetype f = Some m -> has_slash m = true) ->
      exists ext, resolveInputExt f = JString ext).
Proof.
  assert (Hnone : forall f, originalname f = None ->
            forall name e, originalname f = Some name -> ~ has_extension name e)
    by (intros f Hf name e Hn; congruence).
  assert (Htable : forall f m ext,
      (forall name e, originalname f = Some name -> ~ has_extension name e) ->
      mimetype f = Some m -> assoc m mimeToExt = Some ext ->
      resolveInputExt f = JString ext).
  { intros f m ext Hno Hm Ha. rewrite (resolve_without_extension f Hno), Hm.
    assert (Hne : String.eqb m "" = false)
      by (destruct m; [discriminate Ha | reflexivity]).
    unfold truthy, js_or, js_get. rewrite Hne, Ha. simpl.
    now rewrite (mimeToExt_values_truthy _ _ Ha). }
  assert (Hunknown : forall f m,
      (forall name e, originalname f = Some name -> ~ has_extension name e) ->
      mimetype f = Some m -> has_slash m = true -> assoc m mimeToExt = None ->
      resolveInputExt f = JString "").
  { intros f m Hno Hm Hs Ha. rewrite (resolve_without_extension f Hno), Hm.
    assert (Hne : String.eqb m "" = false)
      by (destruct m; [discriminate Hs | reflexivity]).
    unfold truthy, js_or. rewrite Hne. simpl negb. cbv iota.
    now rewrite (js_get_mime_unknown m Hs Ha). }
  refine (conj _ (conj _ (conj _ (conj _ (conj _ _))))).
  - exact resolve_with_extension.
  - exact Htable.
  - intros f Hn Hm. now apply (Htable f "audio/mpeg" "mp3" (Hnone f Hn) Hm).
  - intros f m Hn Hm Hs Ha. exact (Hunknown f m (Hnone f Hn) Hm Hs Ha).
  - intros f Hn Hm. rewrite (resolve_without_extension f (Hnone f Hn)), Hm.
    reflexivity.
  - intros f Hmime.
    destruct (originalname f) as [name|] eqn:Hn.
    + destruct (match_ext name) as [e|] eqn:Hx.
      * exists e. apply (resolve_with_extension f name e Hn).
        now apply match_ext_sound.
      * assert (Hno : forall n e, originalname f = Some n -> ~ has_extension n e).
        { intros n e Hn' He. rewrite Hn in Hn'. injection Hn' as <-.
          apply match_ext_complete in He. congruence. }
        destruct (mimetype f) as [m|] eqn:Hm.
        -- destruct (assoc m mimeToExt) as [e|] eqn:Ha.
           ++ exists e. exact (Htable f m e Hno Hm Ha).
           ++ exists "". exact (Hunknown f m Hno Hm (Hmime m eq_refl) Ha).
        -- exists "". rewrite (resolve_without_extension f Hno), Hm. reflexivity.
    + destruct (mimetype f) as [m|] eqn:Hm.
      * destruct (assoc m mimeToExt) as [e|] eqn:Ha.
        -- exists e. exact (Htable f m e (Hnone f Hn) Hm Ha).
        -- exists "". exact (Hunknown f m (Hnone f Hn) Hm (Hmime m eq_refl) Ha).
      * exists "". rewrite (resolve_without_extension f (Hnone f Hn)), Hm.
        reflexivity.
Qed.

(** The table has no entry named like a property of [Object.prototype],
    so a declared type without a slash can reach an inherited property. *)
Example resolve_inherited_property :
  resolveInputExt {| originalname := None; mimetype := Some "constructor"; buffer := [] |}
  = JNative "Object".
Proof. reflexivity. Qed.

Lemma input_extension_resolution_witness :
  resolveInputExt {| originalname := Some "take.1.wav";
                     mimetype := Some "audio/mpeg"; buffer := [] |} = JString "wav"
  /\ resolveInputExt {| originalname := None;
                        mimetype := Some "audio/mpeg"; buffer := [] |} = JString "mp3"
  /\ resolveInputExt {| originalname := None;
                        mimetype := Some "application/pdf"; buffer := [] |} = JString "".
Proof.
  destruct input_extension_resolution as (Hext & _ & Hmpeg & Hunknown & _).
  split; [| split].
  - apply (Hext _ "take.1.wav" "wav"); [reflexivity |].
    exists "take.1". repeat split. discriminate.
  - apply Hmpeg; reflexivity.
  - apply (Hunknown _ "application/pdf"); reflexivity.
Defined.

(** ** Cleanup *)

Ltac unfold_fs :=
  unfold cleanup, try_catch, try_finally, bind, ret, existsSync, unlinkSync,
    writeFileSync, readFileSync, execSync, record, with_files in *;
  simpl in *.

Lemma cleanup_returns (host : Host) (i o : string) (w : World) :
  fst (cleanup host i o w) = Return tt.
Proof.
  unfold_fs.
  repeat (case_bool_decide || case_match || simpl); simplify_eq; reflexivity.
Qed.

Lemma try_finally_cleanup {A} (host : Host) (m : M A) (i o : string) (w : World) :
  try_finally m (cleanup host i o) w
  = (fst (m w), snd (cleanup host i o (snd (m w)))).
Proof.
  unfold try_finally. destruct (m w) as [r w1]. simpl.
  pose proof (cleanup_returns host i o w1) as H.
  destruct (cleanup host i o w1) as [[[]|e] w2]; simpl in *;
    [reflexivity | discriminate].
Qed.

(** When no deletion is refused, cleanup removes exactly the two paths. *)
Lemma cleanup_files (host : Host) (i o : string) (w : World) :
  (forall p fs, unlink_error host p fs = None) ->
  files (snd (cleanup host i o w)) = delete o (delete i (files w)).
Proof.
  intros Hu. unfold_fs.
  destruct (files w !! i) as [d|] eqn:Hi.
  - rewrite bool_decide_eq_true_2 by eauto. rewrite Hi, Hu. simpl.
    destruct (delete i (files w) !! o) as [d'|] eqn:Ho.
    + rewrite bool_decide_eq_true_2 by eauto. simpl. rewrite Ho, Hu. reflexivity.
    + rewrite bool_decide_eq_false_2 by (intros [? ?]; congruence). simpl.
      now rewrite (delete_id _ _ Ho).
  - rewrite bool_decide_eq_false_2 by (intros [? ?]; congruence). simpl.
    rewrite (delete_id _ _ Hi).
    destruct (files w !! o) as [d'|] eqn:Ho.
    + rewrite bool_decide_eq_true_2 by eauto. simpl. rewrite Ho, Hu. reflexivity.
    + rewrite bool_decide_eq_false_2 by (intros [? ?]; congruence). simpl.
      now rewrite (delete_id _ _ Ho).
Qed.

Lemma cleanup_removes (host : Host) (i o : string) (w : World) :
  (forall p fs, unlink_error host p fs = None) ->
  files (snd (cleanup host i o w)) !! i = None
  /\ files (snd (cleanup host i o w)) !! o = None.
Proof.
  intros Hu. rewrite (cleanup_files host i o w Hu). split.
  - destruct (decide (o = i)) as [-> |Hne].
    + apply lookup_delete_eq.
    + rewrite lookup_delete_ne by exact Hne. apply lookup_delete_eq.
  - apply lookup_delete_eq.
Qed.

(** ** The handlers always answer *)

Lemma convert_try_returns (host : Host) (f : UploadedFile)
    (format bitrate i o : string) (w : World) :
  exists r, fst (convert_try host f format bitrate i o w) = Return r
            /\ (status r = 200 \/ status r = 500).
Proof.
  unfold convert_try. unfold_fs.
  repeat (case_match; simplify_eq; simpl in * ); eauto.
Qed.

Lemma convert_base64_try_returns (host : Host)
    (audio format bitrate i o : string) (w : World) :
  exists r, fst (convert_base64_try host audio format bitrate i o w) = Return r
            /\ (status r = 200 \/ status r = 500).
Proof.
  unfold convert_base64_try. unfold_fs.
  repeat (case_match; simplify_eq; simpl in * ); eauto.
Qed.

Lemma convert_unfold (host : Host) (req : ConvertRequest) (tempId : string)
    (f : UploadedFile) (w : World) :
  member (js_or (query_format req) "ogg") supported_formats = true ->
  file req = Some f ->
  let format := js_or (query_format req) "ogg" in
  let i := convert_inputPath tempId (resolveInputExt f) in
  let o := outputPath tempId format in
  let m := convert_try host f format (js_or (query_bitrate req) "128k") i o in
  convert host req tempId w = (fst (m w), snd (cleanup host i o (snd (m w)))).
Proof.
  intros Hfmt Hfile. simpl. unfold convert. rewrite Hfmt, Hfile. simpl.
  apply try_finally_cleanup.
Qed.

Lemma convert_base64_unfold (host : Host) (req : Base64Request) (tempId : string)
    (w : World) :
  truthy (body_audio req) = true ->
  let format := js_default (body_format req) "ogg" in
  let i := base64_inputPath tempId in
  let o := outputPath tempId format in
  let m := convert_base64_try host (js_or (body_audio req) "") format
             (js_default (body_bitrate req) "128k") i o in
  convert_base64 host req tempId w = (fst (m w), snd (cleanup host i o (snd (m w)))).
Proof.
  intros Haudio. simpl. unfold convert_base64. rewrite Haudio. simpl.
  apply try_finally_cleanup.
Qed.

Lemma convert_rejects_unsupported (host : Host) (req : ConvertRequest)
    (tempId : string) (w : World) :
  member (js_or (query_format req) "ogg") supported_formats = false ->
  convert host req tempId w
  = (Return {| status := 400; body := ErrorJson invalid_format_message |}, w).
Proof. intros H. unfold convert. now rewrite H. Qed.

Lemma convert_rejects_missing_file (host : Host) (req : ConvertRequest)
    (tempId : string) (w : World) :
  member (js_or (query_format req) "ogg") supported_formats = true ->
  file req = None ->
  convert host req tempId w
  = (Return {| status := 400; body := ErrorJson "No audio file provided" |}, w).
Proof. intros H Hf. unfold convert. now rewrite H, Hf. Qed.

Lemma convert_base64_rejects_missing_audio (host : Host) (req : Base64Request)
    (tempId : string) (w : World) :
  truthy (body_audio req) = false ->
  convert_base64 host req tempId w
  = (Return {| status := 400; body := ErrorJson "No audio data provided" |}, w).
Proof. intros H. unfold convert_base64. now rewrite H. Qed.

(** Once [audio] is present, [/convert-base64] answers 200 or 500. *)
Lemma convert_base64_status (host : Host) (req : Base64Request)
    (tempId : string) (w : World) :
  truthy (body_audio req) = true ->
  exists r, fst (convert_base64 host req tempId w) = Return r
            /\ (status r = 200 \/ status r = 500).
Proof.
  intros H. rewrite (convert_base64_unfold host req tempId w H). simpl.
  apply convert_base64_try_returns.
Qed.

Lemma handle_returns (host : Host) (r : Request) (tempId : string) (w : World) :
  exists resp, fst (handle host r tempId w) = Return resp.
Proof.
  destruct r as [req | req]; simpl.
  - destruct (member (js_or (query_format req) "ogg") supported_formats) eqn:Hf.
    + destruct (file req) as [f|] eqn:Hfile.
      * rewrite (convert_unfold host req tempId f w Hf Hfile). simpl.
        destruct (convert_try_returns host f (js_or (query_format req) "ogg")
                    (js_or (query_bitrate req) "128k")
                    (convert_inputPath tempId (resolveInputExt f))
                    (outputPath tempId (js_or (query_format req) "ogg")) w)
          as (resp & Hr & _).
        eauto.
      * rewrite (convert_rejects_missing_file host req tempId w Hf Hfile). eauto.
    + rewrite (convert_rejects_unsupported host req tempId w Hf). eauto.
  - destruct (truthy (body_audio req)) eqn:Ha.
    + destruct (convert_base64_status host req tempId w Ha) as (resp & Hr & _).
      eauto.
    + rewrite (convert_base64_rejects_missing_audio host req tempId w Ha). eauto.
Qed.

(** ** Validation *)

(** C9: in [/convert] the format is validated before the file is looked
    for: a request with an unsupported format and no file gets the 400
    invalid-format answer, not the 400 missing-file answer, and nothing
    else happens. *)
Theorem convert_validates_format_first (host : Host) (req : ConvertRequest)
    (tempId : string) (w : World) :
  member (js_or (query_format req) "ogg") supported_formats = false ->
  file req = None ->
  convert host req tempId w
  = (Return {| status := 400; body := ErrorJson invalid_format_message |}, w)
  /\ response (convert host req tempId w)
     <> Some {| status := 400; body := ErrorJson "No audio file provided" |}.
Proof.
  intros Hfmt _. rewrite (convert_rejects_unsupported host req tempId w Hfmt).
  split; [reflexivity | discriminate].
Qed.

Lemma convert_validates_format_first_witness :
  convert (table_host []) wav_without_file id1 (start ∅)
  = (Return {| status := 400; body := ErrorJson invalid_format_message |}, start ∅)
  /\ response (convert (table_host []) wav_without_file id1 (start ∅))
     <> Some {| status := 400; body := ErrorJson "No audio file provided" |}.
Proof.
  apply (convert_validates_format_first (table_host []) wav_without_file id1 (start ∅));
    reflexivity.
Defined.

(** C7 as stated fails: with no file attached and [format=wav], [/convert]
    answers with the invalid-format message. *)
Lemma missing_file_with_bad_format :
  response (convert (table_host []) wav_without_file id1 (start ∅))
  = Some {| status := 400; body := ErrorJson invalid_format_message |}
  /\ response (convert (table_host []) wav_without_file id1 (start ∅))
     <> Some {| status := 400; body := ErrorJson "No audio file provided" |}.
Proof. split; [reflexivity | discriminate]. Qed.

(** C7, amended: a [/convert] request with no file and a supported (or
    defaulted) format gets 400 [No audio file provided]; a
    [/convert-base64] request with no [audio] field gets 400
    [No audio data provided]; in both cases the scratch directory and the
    list of calls are left as they were: no temp file is written and the
    tool is not run. *)
Theorem missing_input_rejected (host : Host) (tempId : string) (w : World) :
  (forall req : ConvertRequest,
      member (js_or (query_format req) "ogg") supported_formats = true ->
      file req = None ->
      convert host req tempId w
      = (Return {| status := 400; body := ErrorJson "No audio file provided" |}, w))
  /\ (forall req : Base64Request,
      body_audio req = None ->
      convert_base64 host req tempId w
      = (Return {| status := 400; body := ErrorJson "No audio data provided" |}, w)).
Proof.
  split.
  - intros req Hfmt Hfile. now apply convert_rejects_missing_file.
  - intros req Ha. apply convert_base64_rejects_missing_audio. now rewrite Ha.
Qed.

Lemma missing_input_rejected_witness :
  convert (table_host [])
    {| query_format := Some "mp3"; query_bitrate := None; file := None |}
    id1 (start ∅)
  = (Return {| status := 400; body := ErrorJson "No audio file provided" |}, start ∅)
  /\ convert_base64 (table_host [])
       {| body_audio := None; body_format := Some "mp3"; body_bitrate := None |}
       id1 (start ∅)
     = (Return {| status := 400; body := ErrorJson "No audio data provided" |}, start ∅).
Proof.
  destruct (missing_input_rejected (table_host []) id1 (start ∅)) as [Hc Hb].
  split; [apply Hc | apply Hb]; reflexivity.
Defined.

(** C1 fails on the code: [/convert-base64] has no format check.  Asked
    for [wav] it never answers 400: it runs the tool with the default
    encoder and an output path ending in [.wav], and answers 200 when the
    tool succeeds; [/convert] rejects the same format with 400. *)
Theorem base64_accepts_unsupported_format :
  (forall host tempId w,
      exists r, fst (convert_base64 host wav_base64 tempId w) = Return r
                /\ (status r = 200 \/ status r = 500))
  /\ convert_base64 (table_host encoder_table) wav_base64 id1 (start ∅)
     = (Return {| status := 200;
                  body := AudioJson (base64_encode vorbis_bytes) "wav" 6 |},
        {| files := ∅;
           calls := [ EvWriteFile (base64_inputPath id1) sample_audio;
                      EvExec (base64_cmd (base64_inputPath id1)
                                "-c:a libvorbis -b:a 128k" (outputPath id1 "wav"));
                      EvReadFile (outputPath id1 "wav");
                      EvUnlink (base64_inputPath id1);
                      EvUnlink (outputPath id1 "wav") ] |})
  /\ (forall host bitrate f tempId w,
      convert host {| query_format := Some "wav"; query_bitrate := bitrate; file := f |}
        tempId w
      = (Return {| status := 400; body := ErrorJson invalid_format_message |}, w)).
Proof.
  split; [| split].
  - intros host tempId w. now apply convert_base64_status.
  - vm_compute. reflexivity.
  - intros host bitrate f tempId w. now apply convert_rejects_unsupported.
Qed.

(** ** The codec directive table *)

(** The table of [/convert]: one encoder per supported format, and
    [libvorbis] for anything else. *)
Lemma codecArgs_table (bitrate : string) :
  codecArgs "mp3" bitrate = "-c:a libmp3lame -b:a " +:+ bitrate
  /\ codecArgs "ogg" bitrate = "-c:a libvorbis -b:a " +:+ bitrate
  /\ codecArgs "opus" bitrate = "-c:a libopus -b:a " +:+ bitrate
  /\ codecArgs "m4a" bitrate = "-c:a aac -b:a " +:+ bitrate
  /\ codecArgs "aac" bitrate = "-c:a aac -b:a " +:+ bitrate
  /\ (forall format, member format supported_formats = false ->
        codecArgs format bitrate = "-c:a libvorbis -b:a " +:+ bitrate).
Proof.
  repeat (split; [reflexivity |]).
  intros format H. unfold member, supported_formats in H. simpl in H.
  repeat (apply orb_false_elim in H as [? H]).
  unfold codecArgs.
  repeat match goal with E : String.eqb format _ = false |- _ => rewrite E; clear E end.
  reflexivity.
Qed.

(** The table of [/convert-base64] agrees with it on [mp3], on [ogg] and
    on every format other than [opus], [m4a] and [aac]. *)
Lemma codecArgs_base64_agrees (format bitrate : string) :
  member format ["opus"; "m4a"; "aac"] = false ->
  codecArgs_base64 format bitrate = codecArgs format bitrate.
Proof.
  intros H. unfold member in H. simpl in H.
  repeat (apply orb_false_elim in H as [? H]).
  unfold codecArgs, codecArgs_base64.
  repeat match goal with E : String.eqb format _ = false |- _ => rewrite E; clear E end.
  reflexivity.
Qed.

(** C2 fails on the code for [opus], [m4a] and [aac]: [/convert] passes
    [libopus] and [aac], while the [switch] of [/convert-base64] has no
    case for them and passes [libvorbis]. *)
Theorem base64_codec_table_differs (bitrate : string) :
  (codecArgs "opus" bitrate = "-c:a libopus -b:a " +:+ bitrate
   /\ codecArgs_base64 "opus" bitrate = "-c:a libvorbis -b:a " +:+ bitrate)
  /\ (codecArgs "m4a" bitrate = "-c:a aac -b:a " +:+ bitrate
      /\ codecArgs_base64 "m4a" bitrate = "-c:a libvorbis -b:a " +:+ bitrate)
  /\ (codecArgs "aac" bitrate = "-c:a aac -b:a " +:+ bitrate
      /\ codecArgs_base64 "aac" bitrate = "-c:a libvorbis -b:a " +:+ bitrate)
  /\ codecArgs_base64 "opus" bitrate <> codecArgs "opus" bitrate
  /\ codecArgs_base64 "m4a" bitrate <> codecArgs "m4a" bitrate
  /\ codecArgs_base64 "aac" bitrate <> codecArgs "aac" bitrate.
Proof.
  repeat (split; [split; reflexivity |]).
  repeat split; intros H; vm_compute in H; discriminate H.
Qed.

(** ** The cleanup invariant *)

(** The [try] blocks never call [unlinkSync]. *)
Lemma convert_try_ignores_unlink (host : Host) u (f : UploadedFile)
    (format bitrate i o : string) (w : World) :
  convert_try (with_unlink_error host u) f format bitrate i o w
  = convert_try host f format bitrate i o w.
Proof. reflexivity. Qed.

Lemma convert_base64_try_ignores_unlink (host : Host) u
    (audio format bitrate i o : string) (w : World) :
  convert_base64_try (with_unlink_error host u) audio format bitrate i o w
  = convert_base64_try host audio format bitrate i o w.
Proof. reflexivity. Qed.

(** The response is the outcome of the [try] block, whatever the
    [finally] block meets. *)
Lemma handle_ignores_unlink (host : Host) u (r : Request) (tempId : string)
    (w : World) :
  fst (handle (with_unlink_error host u) r tempId w) = fst (handle host r tempId w).
Proof.
  destruct r as [req | req]; simpl.
  - destruct (member (js_or (query_format req) "ogg") supported_formats) eqn:Hf.
    + destruct (file req) as [f|] eqn:Hfile.
      * now rewrite !(convert_unfold _ req tempId f w Hf Hfile).
      * now rewrite !(convert_rejects_missing_file _ req tempId w Hf Hfile).
    + now rewrite !(convert_rejects_unsupported _ req tempId w Hf).
  - destruct (truthy (body_audio req)) eqn:Ha.
    + now rewrite !(convert_base64_unfold _ req tempId w Ha).
    + now rewrite !(convert_base64_rejects_missing_audio _ req tempId w Ha).
Qed.

(** C4 as stated fails: on a host that refuses deletions the request is
    answered 200 and both temp files are still in the scratch directory. *)
Lemma cleanup_invariant_needs_unlink :
  response (convert (readonly_host encoder_table) opus_upload id1 (start ∅))
  = Some {| status := 200; body := AudioBody "audio/opus" 8 opus_bytes |}
  /\ files (snd (convert (readonly_host encoder_table) opus_upload id1 (start ∅)))
       !! convert_inputPath id1 (JString "wav") = Some sample_audio
  /\ files (snd (convert (readonly_host encoder_table) opus_upload id1 (start ∅)))
       !! outputPath id1 "opus" = Some opus_bytes.
Proof. vm_compute. repeat split. Qed.

(** C4, amended: on a host where no deletion is refused, after a request
    to either endpoint the scratch directory holds neither the input nor
    the output temp file of the request, on every exit path (a request
    answered by validation alone names no file and leaves everything as
    it was); and on every host the handler returns a response, which is
    the same whichever deletions are refused. *)
Theorem cleanup_invariant (host : Host) (r : Request) (tempId : string) (w : World) :
  (forall p fs, unlink_error host p fs = None) ->
  match temp_paths r tempId with
  | Some (i, o) =>
      files (snd (handle host r tempId w)) !! i = None
      /\ files (snd (handle host r tempId w)) !! o = None
  | None => snd (handle host r tempId w) = w
  end
  /\ (exists resp, fst (handle host r tempId w) = Return resp)
  /\ (forall u, fst (handle (with_unlink_error host u) r tempId w)
               = fst (handle host r tempId w)).
Proof.
  intros Hu. split; [| split].
  - destruct r as [req | req]; unfold temp_paths, handle.
    + destruct (member (js_or (query_format req) "ogg") supported_formats) eqn:Hf;
        cbn [negb].
      * destruct (file req) as [f|] eqn:Hfile.
        -- rewrite (convert_unfold host req tempId f w Hf Hfile). cbn [snd].
           now apply cleanup_removes.
        -- now rewrite (convert_rejects_missing_file host req tempId w Hf Hfile).
      * now rewrite (convert_rejects_unsupported host req tempId w Hf).
    + destruct (truthy (body_audio req)) eqn:Ha; cbn [negb].
      * rewrite (convert_base64_unfold host req tempId w Ha). cbn [snd].
        now apply cleanup_removes.
      * now rewrite (convert_base64_rejects_missing_audio host req tempId w Ha).
  - apply handle_returns.
  - intros u. apply handle_ignores_unlink.
Qed.

Lemma cleanup_invariant_witness :
  (files (snd (handle (table_host encoder_table) (ToConvert opus_upload) id1 (start ∅)))
     !! convert_inputPath id1 (JString "wav") = None
   /\ files (snd (handle (table_host encoder_table) (ToConvert opus_upload) id1 (start ∅)))
        !! outputPath id1 "opus" = None)
  /\ (exists resp,
        fst (handle (table_host encoder_table) (ToConvert opus_upload) id1 (start ∅))
        = Return resp)
  /\ (forall u,
        fst (handle (with_unlink_error (table_host encoder_table) u)
               (ToConvert opus_upload) id1 (start ∅))
        = fst (handle (table_host encoder_table) (ToConvert opus_upload) id1 (start ∅))).
Proof.
  apply (cleanup_invariant (table_host encoder_table) (ToConvert opus_upload) id1 (start ∅)).
  reflexivity.
Defined.

(** ** The command line *)

Ltac split_calls :=
  repeat (case_bool_decide || case_match || simplify_eq || simpl in * );
  rewrite ?in_app_iff in *; simpl in *.

Lemma cleanup_calls_exec (host : Host) (i o cmd : string) (w : World) :
  In (EvExec cmd) (calls (snd (cleanup host i o w))) <-> In (EvExec cmd) (calls w).
Proof.
  unfold_fs. split_calls; intuition congruence.
Qed.

Lemma convert_try_exec (host : Host) (f : UploadedFile)
    (format bitrate i o cmd : string) (w : World) :
  In (EvExec cmd) (calls (snd (convert_try host f format bitrate i o w))) ->
  In (EvExec cmd) (calls w) \/ cmd = convert_cmd i (codecArgs format bitrate) o.
Proof.
  unfold convert_try. unfold_fs. split_calls; intuition congruence.
Qed.

Lemma convert_try_reaches_exec (host : Host) (f : UploadedFile)
    (format bitrate i o : string) (w : World) :
  write_error host i (buffer f) (files w) = None ->
  In (EvExec (convert_cmd i (codecArgs format bitrate) o))
     (calls (snd (convert_try host f format bitrate i o w))).
Proof.
  intros Hw. unfold convert_try. unfold_fs. rewrite Hw.
  split_calls; intuition congruence.
Qed.

Lemma convert_base64_try_exec (host : Host)
    (audio format bitrate i o cmd : string) (w : World) :
  In (EvExec cmd) (calls (snd (convert_base64_try host audio format bitrate i o w))) ->
  In (EvExec cmd) (calls w) \/ cmd = base64_cmd i (codecArgs_base64 format bitrate) o.
Proof.
  unfold convert_base64_try. unfold_fs. split_calls; intuition congruence.
Qed.

Lemma convert_base64_try_reaches_exec (host : Host)
    (audio format bitrate i o : string) (w : World) :
  write_error host i (base64_decode audio) (files w) = None ->
  In (EvExec (base64_cmd i (codecArgs_base64 format bitrate) o))
     (calls (snd (convert_base64_try host audio format bitrate i o w))).
Proof.
  intros Hw. unfold convert_base64_try. unfold_fs. rewrite Hw.
  split_calls; intuition congruence.
Qed.

Lemma codecArgs_shape (format bitrate : string) :
  exists enc, In enc encoders
              /\ codecArgs format bitrate = "-c:a " +:+ enc +:+ " -b:a " +:+ bitrate.
Proof.
  unfold codecArgs, encoders.
  repeat case_match;
    [ exists "libmp3lame" | exists "libvorbis" | exists "libopus" | exists "aac"
    | exists "libvorbis" ]; simpl; intuition.
Qed.

Lemma codecArgs_base64_shape (format bitrate : string) :
  exists enc, In enc encoders
              /\ codecArgs_base64 format bitrate
                 = "-c:a " +:+ enc +:+ " -b:a " +:+ bitrate.
Proof.
  unfold codecArgs_base64, encoders.
  repeat case_match; [ exists "libmp3lame" | exists "libvorbis" | exists "libvorbis" ];
    simpl; intuition.
Qed.

(** C8: every command line a handler hands to [execSync] is [ffmpeg]
    followed by [-i <input> <codec args> -y <output>], where <input> and
    <output> are the temp paths of the request (wrapped in double quotes
    by [/convert], bare in [/convert-base64]) and <codec args> is
    [-c:a <encoder> -b:a <bitrate>] with the bitrate string of the request
    spliced in unchanged; a request that passes validation and whose input
    file is written does reach that call; a supplied non-empty bitrate is
    used as it is. *)
Theorem command_shape (host : Host) (tempId : string) (fs : gmap string bytes) :
  (forall req cmd,
      In (EvExec cmd) (calls (snd (convert host req tempId (start fs)))) ->
      exists f enc,
        file req = Some f /\ In enc encoders
        /\ cmd = "ffmpeg -i " +:+ dquote
                   +:+ convert_inputPath tempId (resolveInputExt f) +:+ dquote
                 +:+ " " +:+ ("-c:a " +:+ enc +:+ " -b:a "
                              +:+ js_or (query_bitrate req) "128k")
                 +:+ " -y " +:+ dquote
                   +:+ outputPath tempId (js_or (query_format req) "ogg") +:+ dquote)
  /\ (forall req cmd,
      In (EvExec cmd) (calls (snd (convert_base64 host req tempId (start fs)))) ->
      exists enc,
        In enc encoders
        /\ cmd = "ffmpeg -i " +:+ base64_inputPath tempId
                 +:+ " " +:+ ("-c:a " +:+ enc +:+ " -b:a "
                              +:+ js_default (body_bitrate req) "128k")
                 +:+ " -y " +:+ outputPath tempId (js_default (body_format req) "ogg"))
  /\ (forall req f,
      member (js_or (query_format req) "ogg") supported_formats = true ->
      file req = Some f ->
      write_error host (convert_inputPath tempId (resolveInputExt f)) (buffer f) fs
      = None ->
      exists cmd, In (EvExec cmd) (calls (snd (convert host req tempId (start fs)))))
  /\ (forall req,
      truthy (body_audio req) = true ->
      write_error host (base64_inputPath tempId)
        (base64_decode (js_or (body_audio req) "")) fs = None ->
      exists cmd,
        In (EvExec cmd) (calls (snd (convert_base64 host req tempId (start fs)))))
  /\ (forall b, b <> "" ->
      js_or (Some b) "128k" = b /\ js_default (Some b) "128k" = b).
Proof.
  refine (conj _ (conj _ (conj _ (conj _ _)))).
  - intros req cmd Hin.
    destruct (member (js_or (query_format req) "ogg") supported_formats) eqn:Hf.
    + destruct (file req) as [f|] eqn:Hfile.
      * rewrite (convert_unfold host req tempId f (start fs) Hf Hfile) in Hin.
        cbn [snd] in Hin. apply cleanup_calls_exec in Hin.
        apply convert_try_exec in Hin as [[] | ->].
        destruct (codecArgs_shape (js_or (query_format req) "ogg")
                    (js_or (query_bitrate req) "128k")) as (enc & Henc & ->).
        exists f, enc. repeat split; assumption.
      * rewrite (convert_rejects_missing_file host req tempId _ Hf Hfile) in Hin.
        destruct Hin.
    + rewrite (convert_rejects_unsupported host req tempId _ Hf) in Hin.
      destruct Hin.
  - intros req cmd Hin.
    destruct (truthy (body_audio req)) eqn:Ha.
    + rewrite (convert_base64_unfold host req tempId (start fs) Ha) in Hin.
      cbn [snd] in Hin. apply cleanup_calls_exec in Hin.
      apply convert_base64_try_exec in Hin as [[] | ->].
      destruct (codecArgs_base64_shape (js_default (body_format req) "ogg")
                  (js_default (body_bitrate req) "128k")) as (enc & Henc & ->).
      exists enc. split; [assumption | reflexivity].
    + rewrite (convert_base64_rejects_missing_audio host req tempId _ Ha) in Hin.
      destruct Hin.
  - intros req f Hf Hfile Hw. eexists.
    rewrite (convert_unfold host req tempId f (start fs) Hf Hfile). cbn [snd].
    apply cleanup_calls_exec. now apply convert_try_reaches_exec.
  - intros req Ha Hw. eexists.
    rewrite (convert_base64_unfold host req tempId (start fs) Ha). cbn [snd].
    apply cleanup_calls_exec. now apply convert_base64_try_reaches_exec.
  - intros b Hb. split; [| reflexivity].
    unfold js_or. destruct (String.eqb_spec b ""); [contradiction | reflexivity].
Qed.

Lemma command_shape_witness :
  exists cmd,
    In (EvExec cmd)
       (calls (snd (convert (table_host encoder_table) opus_upload id1 (start ∅)))).
Proof.
  destruct (command_shape (table_host encoder_table) id1 ∅) as (_ & _ & Hreach & _).
  apply (Hreach opus_upload upload); reflexivity.
Defined.

(** ** Temp file naming *)

Lemma uuid_from_length (i : nat) (s : string) :
  uuid_from i s = true -> i + String.length s = 36.
Proof.
  revert i. induction s as [|c r IH]; intros i H; simpl in *.
  - apply Nat.eqb_eq in H. lia.
  - apply andb_prop in H as [_ H]. apply IH in H. lia.
Qed.

Lemma is_uuid_length (s : string) : is_uuid s = true -> String.length s = 36.
Proof. intros H. apply (uuid_from_length 0 s H). Qed.

(** Both paths of a request are [/tmp/<id>] followed by [_input...] or
    [_output....]. *)
Lemma temp_paths_shape (r : Request) (tempId i o : string) :
  temp_paths r tempId = Some (i, o) ->
  exists ext format,
    i = "/tmp/" +:+ tempId +:+ "_input" +:+ ext
    /\ o = "/tmp/" +:+ tempId +:+ "_output." +:+ format.
Proof.
  destruct r as [req | req]; unfold temp_paths.
  - destruct (negb _); [discriminate |].
    destruct (file req) as [f|]; [| discriminate].
    intros [= <- <-]. eexists _, _. split; reflexivity.
  - destruct (negb _); [discriminate |].
    intros [= <- <-]. exists "", (js_default (body_format req) "ogg").
    split; [| reflexivity].
    unfold base64_inputPath. now rewrite append_nil_r.
Qed.

Lemma tmp_inj (a b : string) : "/tmp/" +:+ a = "/tmp/" +:+ b -> a = b.
Proof. intros H. now injection H. Qed.

Lemma input_is_not_output (tempId ext format : string) :
  "/tmp/" +:+ tempId +:+ "_input" +:+ ext
  <> "/tmp/" +:+ tempId +:+ "_output." +:+ format.
Proof.
  intros H. apply tmp_inj in H.
  apply (append_same_length tempId tempId) in H as [_ H]; [| reflexivity].
  discriminate H.
Qed.

Lemma distinct_ids_distinct_paths (id_a id_b rest_a rest_b : string) :
  String.length id_a = String.length id_b -> id_a <> id_b ->
  "/tmp/" +:+ id_a +:+ rest_a <> "/tmp/" +:+ id_b +:+ rest_b.
Proof.
  intros Hlen Hne H. apply tmp_inj in H.
  now apply (append_same_length id_a id_b) in H as [? _].
Qed.

(** C5: two requests (to either endpoint) whose generated identifiers
    are distinct UUIDs work on four pairwise distinct temp paths, whatever
    the resolved input extension and the target format; within one request
    the input path differs from the output path. *)
Theorem temp_paths_distinct (r1 r2 : Request) (tempId1 tempId2 : string)
    (i1 o1 i2 o2 : string) :
  is_uuid tempId1 = true -> is_uuid tempId2 = true -> tempId1 <> tempId2 ->
  temp_paths r1 tempId1 = Some (i1, o1) ->
  temp_paths r2 tempId2 = Some (i2, o2) ->
  i1 <> o1 /\ i2 <> o2
  /\ i1 <> i2 /\ i1 <> o2 /\ o1 <> i2 /\ o1 <> o2.
Proof.
  intros H1 H2 Hne Hp1 Hp2.
  apply is_uuid_length in H1, H2.
  assert (Hlen : String.length tempId1 = String.length tempId2) by congruence.
  destruct (temp_paths_shape _ _ _ _ Hp1) as (e1 & f1 & -> & ->).
  destruct (temp_paths_shape _ _ _ _ Hp2) as (e2 & f2 & -> & ->).
  repeat split;
    first [ apply input_is_not_output
          | now apply distinct_ids_distinct_paths ].
Qed.

Lemma temp_paths_distinct_witness :
  convert_inputPath id1 (JString "wav") <> outputPath id1 "opus"
  /\ base64_inputPath id2 <> outputPath id2 "opus"
  /\ convert_inputPath id1 (JString "wav") <> base64_inputPath id2
  /\ convert_inputPath id1 (JString "wav") <> outputPath id2 "opus"
  /\ outputPath id1 "opus" <> base64_inputPath id2
  /\ outputPath id1 "opus" <> outputPath id2 "opus".
Proof.
  apply (temp_paths_distinct (ToConvert opus_upload) (ToBase64 opus_base64) id1 id2);
    try reflexivity.
  discriminate.
Defined.

(** Without the fixed length of a UUID the naming scheme would not
    separate requests: these two identifiers differ and yet name the same
    file. *)
Example unequal_length_ids_collide :
  outputPath "a" "mp3_output.mp3" = outputPath "a_output.mp3" "mp3".
Proof. reflexivity. Qed.

(** Every file-system call of a request names one of its two temp
    paths; a request answered by validation alone makes no call. *)
Lemma cleanup_calls (host : Host) (i o : string) (w : World) (e : Event) :
  In e (calls (snd (cleanup host i o w))) ->
  In e (calls w) \/ e = EvUnlink i \/ e = EvUnlink o.
Proof.
  unfold_fs. split_calls; intuition congruence.
Qed.

Lemma convert_try_calls (host : Host) (f : UploadedFile)
    (format bitrate i o : string) (w : World) (e : Event) :
  In e (calls (snd (convert_try host f format bitrate i o w))) ->
  In e (calls w) \/ event_path e = Some i \/ event_path e = Some o
  \/ event_path e = None.
Proof.
  unfold convert_try. unfold_fs. split_calls; intuition (subst; auto).
Qed.

Lemma convert_base64_try_calls (host : Host)
    (audio format bitrate i o : string) (w : World) (e : Event) :
  In e (calls (snd (convert_base64_try host audio format bitrate i o w))) ->
  In e (calls w) \/ event_path e = Some i \/ event_path e = Some o
  \/ event_path e = None.
Proof.
  unfold convert_base64_try. unfold_fs. split_calls; intuition (subst; auto).
Qed.

Lemma handle_touches_only_temp_paths (host : Host) (r : Request)
    (tempId : string) (fs : gmap string bytes) (e : Event) (p : string) :
  In e (calls (snd (handle host r tempId (start fs)))) ->
  event_path e = Some p ->
  exists i o, temp_paths r tempId = Some (i, o) /\ (p = i \/ p = o).
Proof.
  intros Hin Hp. destruct r as [req | req]; unfold temp_paths, handle in *.
  - destruct (member (js_or (query_format req) "ogg") supported_formats) eqn:Hf.
    + destruct (file req) as [f|] eqn:Hfile.
      * rewrite (convert_unfold host req tempId f (start fs) Hf Hfile) in Hin.
        cbn [snd negb] in *. eexists _, _. split; [reflexivity |].
        apply cleanup_calls in Hin as [Hin | [-> | ->]].
        -- apply convert_try_calls in Hin as [[] | [H | [H | H]]];
             rewrite Hp in H; [left | right | discriminate]; congruence.
        -- left. simpl in Hp. congruence.
        -- right. simpl in Hp. congruence.
      * rewrite (convert_rejects_missing_file host req tempId _ Hf Hfile) in Hin.
        destruct Hin.
    + rewrite (convert_rejects_unsupported host req tempId _ Hf) in Hin.
      destruct Hin.
  - destruct (truthy (body_audio req)) eqn:Ha.
    + rewrite (convert_base64_unfold host req tempId (start fs) Ha) in Hin.
      cbn [snd negb] in *. eexists _, _. split; [reflexivity |].
      apply cleanup_calls in Hin as [Hin | [-> | ->]].
      * apply convert_base64_try_calls in Hin as [[] | [H | [H | H]]];
          rewrite Hp in H; [left | right | discriminate]; congruence.
      * left. simpl in Hp. congruence.
      * right. simpl in Hp. congruence.
    + rewrite (convert_base64_rejects_missing_audio host req tempId _ Ha) in Hin.
      destruct Hin.
Qed.

(** ** The base64 codec *)

Lemma byte_of_to_N (b : Byte.byte) : byte_of_N (Byte.to_N b) = b.
Proof.
  unfold byte_of_N. pose proof (Byte.to_N_bounded b).
  rewrite N.mod_small by lia. now rewrite Byte.of_to_N.
Qed.

Lemma in_all_bytes (b : Byte.byte) : In b all_bytes.
Proof.
  unfold all_bytes. rewrite <- (byte_of_to_N b). apply in_map.
  pose proof (Byte.to_N_bounded b).
  rewrite <- (N2Nat.id (Byte.to_N b)). apply in_map. apply in_seq. lia.
Qed.

Lemma for_all_bytes_spec (P : Byte.byte -> bool) :
  for_all_bytes P = true -> forall b, P b = true.
Proof.
  intros H b. unfold for_all_bytes in H. rewrite forallb_forall in H.
  apply H, in_all_bytes.
Qed.

(** A two-byte identity of the 6-bit arithmetic holds if it holds on all
    65536 pairs. *)
Lemma all_pairs (f g : Byte.byte -> Byte.byte -> N) :
  for_all_bytes (fun x => for_all_bytes (fun y => N.eqb (f x y) (g x y))) = true ->
  forall a b, f a b = g a b.
Proof.
  intros H a b.
  pose proof (for_all_bytes_spec _ H a) as Ha. cbv beta in Ha.
  pose proof (for_all_bytes_spec _ Ha b) as Hb. cbv beta in Hb.
  now apply N.eqb_eq.
Qed.

Lemma all_single (f g : Byte.byte -> Byte.byte) :
  for_all_bytes (fun x => Byte.eqb (f x) (g x)) = true -> forall a, f a = g a.
Proof.
  intros H a. apply Byte.byte_dec_bl. apply (for_all_bytes_spec _ H a).
Qed.

Lemma enc1_low (a b : Byte.byte) :
  N.land (enc1 a b) 15 = N.shiftr (Byte.to_N b) 4.
Proof.
  revert a b.
  apply (all_pairs (fun a b => N.land (enc1 a b) 15)
                   (fun a b => N.shiftr (Byte.to_N b) 4)).
  vm_compute. reflexivity.
Qed.

Lemma enc1_high (a b : Byte.byte) :
  N.shiftr (N.land (enc1 a b) 48) 4 = N.land (Byte.to_N a) 3.
Proof.
  revert a b.
  apply (all_pairs (fun a b => N.shiftr (N.land (enc1 a b) 48) 4)
                   (fun a b => N.land (Byte.to_N a) 3)).
  vm_compute. reflexivity.
Qed.

Lemma enc2_low (b c : Byte.byte) :
  N.land (enc2 b c) 3 = N.shiftr (Byte.to_N c) 6.
Proof.
  revert b c.
  apply (all_pairs (fun b c => N.land (enc2 b c) 3)
                   (fun b c => N.shiftr (Byte.to_N c) 6)).
  vm_compute. reflexivity.
Qed.

Lemma enc2_high (b c : Byte.byte) :
  N.shiftr (N.land (enc2 b c) 60) 2 = N.land (Byte.to_N b) 15.
Proof.
  revert b c.
  apply (all_pairs (fun b c => N.shiftr (N.land (enc2 b c) 60) 2)
                   (fun b c => N.land (Byte.to_N b) 15)).
  vm_compute. reflexivity.
Qed.

(** A byte is its upper bits followed by its lower bits, at each of the
    three cut points of a 24-bit group. *)
Lemma join_2 (a : Byte.byte) :
  byte_of_N (N.lor (N.shiftl (N.land (enc0 a) 63) 2) (N.land (Byte.to_N a) 3)) = a.
Proof.
  revert a. apply (all_single (fun a => byte_of_N _) (fun a => a)).
  vm_compute. reflexivity.
Qed.

Lemma join_4 (b : Byte.byte) :
  byte_of_N (N.lor (N.shiftl (N.shiftr (Byte.to_N b) 4) 4) (N.land (Byte.to_N b) 15)) = b.
Proof.
  revert b. apply (all_single (fun b => byte_of_N _) (fun b => b)).
  vm_compute. reflexivity.
Qed.

Lemma join_6 (c : Byte.byte) :
  byte_of_N (N.lor (N.shiftl (N.shiftr (Byte.to_N c) 6) 6) (N.land (enc3 c) 63)) = c.
Proof.
  revert c. apply (all_single (fun c => byte_of_N _) (fun c => c)).
  vm_compute. reflexivity.
Qed.

Lemma dec0_enc (a b : Byte.byte) : dec0 (enc0 a) (enc1 a b) = a.
Proof. unfold dec0. rewrite enc1_high. apply join_2. Qed.

Lemma dec1_enc (a b c : Byte.byte) : dec1 (enc1 a b) (enc2 b c) = b.
Proof. unfold dec1. rewrite enc1_low, enc2_high. apply join_4. Qed.

Lemma dec2_enc (b c : Byte.byte) : dec2 (enc2 b c) (enc3 c) = c.
Proof. unfold dec2. rewrite enc2_low. apply join_6. Qed.

Lemma enc_bounds (a b : Byte.byte) :
  (enc0 a < 64 /\ enc1 a b < 64 /\ enc2 a b < 64 /\ enc3 a < 64)%N.
Proof.
  pose proof (all_pairs
    (fun a b => if ((enc0 a <? 64) && (enc1 a b <? 64)
                    && (enc2 a b <? 64) && (enc3 a <? 64))%N then 0%N else 1%N)
    (fun _ _ => 0%N) ltac:(vm_compute; reflexivity) a b) as H.
  cbv beta in H.
  destruct (enc0 a <? 64)%N eqn:H0; [| discriminate H].
  destruct (enc1 a b <? 64)%N eqn:H1; [| discriminate H].
  destruct (enc2 a b <? 64)%N eqn:H2; [| discriminate H].
  destruct (enc3 a <? 64)%N eqn:H3; [| discriminate H].
  apply N.ltb_lt in H0, H1, H2, H3. auto.
Qed.

(** Each digit of the alphabet reads back as the value it stands for. *)
Lemma unbase64_base64_char (n : N) :
  (n < 64)%N ->
  Ascii.eqb (base64_char n) "=" = false /\ unbase64 (base64_char n) = Some n.
Proof.
  intros Hn.
  assert (Hin : In n (map N.of_nat (seq 0 64))).
  { rewrite <- (N2Nat.id n). apply in_map, in_seq. lia. }
  assert (Hall : forallb
            (fun n => negb (Ascii.eqb (base64_char n) "=")
                      && match unbase64 (base64_char n) with
                         | Some m => N.eqb m n
                         | None => false
                         end)
            (map N.of_nat (seq 0 64)) = true) by (vm_compute; reflexivity).
  rewrite forallb_forall in Hall. specialize (Hall n Hin). cbv beta in Hall.
  apply andb_prop in Hall as [H1 H2]. split.
  - now apply negb_true_iff.
  - destruct (unbase64 (base64_char n)) as [m|]; [| discriminate].
    apply N.eqb_eq in H2. now subst.
Qed.

Lemma base64_sextets_digit (n : N) (r : string) :
  (n < 64)%N ->
  base64_sextets (String (base64_char n) r) = n :: base64_sextets r.
Proof.
  intros Hn. destruct (unbase64_base64_char n Hn) as [H1 H2].
  simpl. now rewrite H1, H2.
Qed.

Lemma list_ind3 {A} (P : list A -> Prop) :
  P [] -> (forall a, P [a]) -> (forall a b, P [a; b]) ->
  (forall a b c r, P r -> P (a :: b :: c :: r)) ->
  forall l, P l.
Proof.
  intros H0 H1 H2 H3 l.
  enough (H : P l /\ (forall a, P (a :: l)) /\ (forall a b, P (a :: b :: l)))
    by apply H.
  induction l as [|x l (IH0 & IH1 & IH2)]; auto.
Qed.

(** Decoding what [toString('base64')] wrote gives the bytes back. *)
Lemma base64_roundtrip (l : bytes) : base64_decode (base64_encode l) = l.
Proof.
  unfold base64_decode. induction l as [| a | a b | a b c r IH] using list_ind3.
  - reflexivity.
  - destruct (enc_bounds a Byte.x00) as (B0 & B1 & _ & _).
    cbn [base64_encode]. rewrite !base64_sextets_digit by assumption.
    cbn [base64_sextets Ascii.eqb Bool.eqb base64_bytes].
    simpl. now rewrite dec0_enc.
  - destruct (enc_bounds a b) as (B0 & B1 & _ & _).
    destruct (enc_bounds b Byte.x00) as (_ & _ & B2 & _).
    cbn [base64_encode]. rewrite !base64_sextets_digit by assumption.
    simpl. now rewrite dec0_enc, dec1_enc.
  - destruct (enc_bounds a b) as (B0 & B1 & _ & _).
    destruct (enc_bounds b c) as (_ & _ & B2 & _).
    destruct (enc_bounds c c) as (_ & _ & _ & B3).
    cbn [base64_encode]. rewrite !base64_sextets_digit by assumption.
    cbn [base64_bytes]. now rewrite dec0_enc, dec1_enc, dec2_enc, IH.
Qed.




(** ** Malformed base64 *)

Lemma cleanup_calls_mono (host : Host) (i o : string) (w : World) (e : Event) :
  In e (calls w) -> In e (calls (snd (cleanup host i o w))).
Proof.
  intros H. unfold_fs. split_calls; intuition.
Qed.

Lemma convert_base64_try_writes (host : Host)
    (audio format bitrate i o : string) (w : World) :
  In (EvWriteFile i (base64_decode audio))
     (calls (snd (convert_base64_try host audio format bitrate i o w))).
Proof.
  unfold convert_base64_try. unfold_fs. split_calls; intuition.
Qed.


(** ** The two endpoints on the same input *)

(** C3 fails on the code for [opus] (and likewise [m4a] and [aac]): the
    same bytes, format and bitrate reach the tool with [-c:a libopus] from
    [/convert] and with [-c:a libvorbis] from [/convert-base64], on every
    host; with a tool that encodes as its command line says, the binary
    body and the decoded [audio] field are different bytes.  The base64
    step itself is lossless ([base64_roundtrip]). *)
Theorem endpoints_disagree_on_opus :
  (forall host tempId fs cmd,
      In (EvExec cmd) (calls (snd (convert host opus_upload tempId (start fs)))) ->
      cmd = convert_cmd (convert_inputPath tempId (JString "wav"))
              "-c:a libopus -b:a 96k" (outputPath tempId "opus"))
  /\ (forall host tempId fs cmd,
      In (EvExec cmd) (calls (snd (convert_base64 host opus_base64 tempId (start fs)))) ->
      cmd = base64_cmd (base64_inputPath tempId)
              "-c:a libvorbis -b:a 96k" (outputPath tempId "opus"))
  /\ convert (table_host encoder_table) opus_upload id1 (start ∅)
     = (Return {| status := 200; body := AudioBody "audio/opus" 8 opus_bytes |},
        {| files := ∅;
           calls := [ EvWriteFile (convert_inputPath id1 (JString "wav")) sample_audio;
                      EvExec (convert_cmd (convert_inputPath id1 (JString "wav"))
                                "-c:a libopus -b:a 96k" (outputPath id1 "opus"));
                      EvReadFile (outputPath id1 "opus");
                      EvUnlink (convert_inputPath id1 (JString "wav"));
                      EvUnlink (outputPath id1 "opus") ] |})
  /\ convert_base64 (table_host encoder_table) opus_base64 id2 (start ∅)
     = (Return {| status := 200;
                  body := AudioJson (base64_encode vorbis_bytes) "opus" 6 |},
        {| files := ∅;
           calls := [ EvWriteFile (base64_inputPath id2) sample_audio;
                      EvExec (base64_cmd (base64_inputPath id2)
                                "-c:a libvorbis -b:a 96k" (outputPath id2 "opus"));
                      EvReadFile (outputPath id2 "opus");
                      EvUnlink (base64_inputPath id2);
                      EvUnlink (outputPath id2 "opus") ] |})
  /\ base64_decode (base64_encode vorbis_bytes) = vorbis_bytes
  /\ vorbis_bytes <> opus_bytes.
Proof.
  refine (conj _ (conj _ (conj _ (conj _ (conj _ _))))).
  - intros host tempId fs cmd Hin.
    rewrite (convert_unfold host opus_upload tempId upload (start fs)
               eq_refl eq_refl) in Hin.
    cbn [snd] in Hin. apply cleanup_calls_exec in Hin.
    now apply convert_try_exec in Hin as [[] | ->].
  - intros host tempId fs cmd Hin.
    rewrite (convert_base64_unfold host opus_base64 tempId (start fs) eq_refl) in Hin.
    cbn [snd] in Hin. apply cleanup_calls_exec in Hin.
    now apply convert_base64_try_exec in Hin as [[] | ->].
  - vm_compute. reflexivity.
  - vm_compute. reflexivity.
  - apply base64_roundtrip.
  - discriminate.
Qed.

(** ** What a run of the [try] block yields *)

(** The response of the [try] block of [/convert], by what the host
    does: a refused write, a failing tool, a missing output file, or
    success. *)
Lemma convert_try_response (host : Host) (f : UploadedFile)
    (format bitrate i o : string) (w : World) :
  fst (convert_try host f format bitrate i o w)
  = Return
      match write_error host i (buffer f) (files w) with
      | Some e => {| status := 500;
                     body := ErrorDetailsJson "Server error" (message e) |}
      | None =>
          match exec host (convert_cmd i (codecArgs format bitrate) o)
                  (<[i := buffer f]> (files w)) with
          | (Some e, _) =>
              {| status := 500;
                 body := ConversionFailedJson (js_or (stderr e) (message e))
                           (originalname f) (mimetype f) (file_size f) |}
          | (None, fs1) =>
              match fs1 !! o with
              | Some data =>
                  {| status := 200;
                     body := AudioBody (contentType format) (length data) data |}
              | None =>
                  {| status := 500;
                     body := ErrorDetailsJson "Server error"
                               (message (enoent "open" o)) |}
              end
          end
      end.
Proof.
  unfold convert_try. unfold_fs.
  destruct (write_error host i (buffer f) (files w)); [reflexivity |]. simpl.
  destruct (exec host _ _) as [[e|] fs1]; [reflexivity |]. simpl.
  destruct (fs1 !! o); reflexivity.
Qed.

Lemma convert_base64_try_response (host : Host)
    (audio format bitrate i o : string) (w : World) :
  fst (convert_base64_try host audio format bitrate i o w)
  = Return
      match write_error host i (base64_decode audio) (files w) with
      | Some e => {| status := 500; body := ErrorJson (message e) |}
      | None =>
          match exec host (base64_cmd i (codecArgs_base64 format bitrate) o)
                  (<[i := base64_decode audio]> (files w)) with
          | (Some e, _) => {| status := 500; body := ErrorJson (message e) |}
          | (None, fs1) =>
              match fs1 !! o with
              | Some data =>
                  {| status := 200;
                     body := AudioJson (base64_encode data) format (length data) |}
              | None =>
                  {| status := 500;
                     body := ErrorJson (message (enoent "open" o)) |}
              end
          end
      end.
Proof.
  unfold convert_base64_try. unfold_fs.
  destruct (write_error host i (base64_decode audio) (files w)); [reflexivity |].
  simpl.
  destruct (exec host _ _) as [[e|] fs1]; [reflexivity |]. simpl.
  destruct (fs1 !! o); reflexivity.
Qed.

Lemma contentType_supported (format : string) :
  member format supported_formats = true ->
  assoc format contentTypes = Some (contentType format)
  /\ In (contentType format)
        ["audio/ogg"; "audio/mpeg"; "audio/opus"; "audio/mp4"; "audio/aac"].
Proof.
  intros H. unfold member, supported_formats in H. simpl in H.
  repeat (apply orb_prop in H as [H | H]; [apply String.eqb_eq in H as -> |]);
    try discriminate H; (split; [reflexivity | simpl; tauto]).
Qed.

(** ** The answers of [/convert] *)

(** X1: [/convert] answers 200 exactly when the format is supported, a
    file is attached, the input file is written, the tool exits 0 and the
    output path then holds a file; the body is that file, byte for byte,
    [Content-Length] is its length and [Content-Type] is the entry of the
    format in [contentTypes] (the fallback is never used). *)
Theorem convert_success_iff (host : Host) (req : ConvertRequest)
    (tempId : string) (w : World) (r : Response) :
  (fst (convert host req tempId w) = Return r /\ status r = 200)
  <->
  (exists f data fs1 ct,
      member (js_or (query_format req) "ogg") supported_formats = true
      /\ file req = Some f
      /\ write_error host (convert_inputPath tempId (resolveInputExt f))
           (buffer f) (files w) = None
      /\ exec host
           (convert_cmd (convert_inputPath tempId (resolveInputExt f))
              (codecArgs (js_or (query_format req) "ogg")
                 (js_or (query_bitrate req) "128k"))
              (outputPath tempId (js_or (query_format req) "ogg")))
           (<[convert_inputPath tempId (resolveInputExt f) := buffer f]> (files w))
         = (None, fs1)
      /\ fs1 !! outputPath tempId (js_or (query_format req) "ogg") = Some data
      /\ assoc (js_or (query_format req) "ogg") contentTypes = Some ct
      /\ r = {| status := 200; body := AudioBody ct (length data) data |}).
Proof.
  split.
  - intros [Hr Hs].
    destruct (member (js_or (query_format req) "ogg") supported_formats) eqn:Hf.
    + destruct (file req) as [f|] eqn:Hfile.
      * rewrite (convert_unfold host req tempId f w Hf Hfile) in Hr.
        cbn [fst] in Hr. rewrite convert_try_response in Hr.
        injection Hr as Hr.
        destruct (write_error host _ (buffer f) (files w)) eqn:Hw;
          [subst r; discriminate Hs |].
        destruct (exec host _ _) as [[e|] fs1] eqn:He;
          [subst r; discriminate Hs |].
        destruct (fs1 !! _) as [data|] eqn:Ho; [| subst r; discriminate Hs].
        exists f, data, fs1, (contentType (js_or (query_format req) "ogg")).
        destruct (contentType_supported _ Hf) as [Hct _].
        repeat split; auto.
      * rewrite (convert_rejects_missing_file host req tempId w Hf Hfile) in Hr.
        injection Hr as <-. discriminate Hs.
    + rewrite (convert_rejects_unsupported host req tempId w Hf) in Hr.
      injection Hr as <-. discriminate Hs.
  - intros (f & data & fs1 & ct & Hf & Hfile & Hw & He & Ho & Hct & ->).
    split; [| reflexivity].
    rewrite (convert_unfold host req tempId f w Hf Hfile). cbn [fst].
    rewrite convert_try_response, Hw, He, Ho.
    destruct (contentType_supported _ Hf) as [Hct' _].
    rewrite Hct in Hct'. injection Hct' as ->. reflexivity.
Qed.

Lemma convert_success_iff_witness :
  fst (convert (table_host encoder_table) opus_upload id1 (start ∅))
  = Return {| status := 200; body := AudioBody "audio/opus" 8 opus_bytes |}
  /\ status {| status := 200; body := AudioBody "audio/opus" 8 opus_bytes |} = 200.
Proof.
  apply (convert_success_iff (table_host encoder_table) opus_upload id1 (start ∅)).
  exists upload, opus_bytes,
    (<[outputPath id1 "opus" := opus_bytes]>
       (<[convert_inputPath id1 (JString "wav") := sample_audio]> ∅)),
    "audio/opus".
  repeat split; vm_compute; reflexivity.
Defined.

(** X2: the three ways [/convert] fails after validation.  A refused
    write is answered 500 [Server error] with the error's message, and the
    tool is not run.  A failing tool is answered 500 [Conversion failed]
    with the captured error stream (the error's message when nothing was
    captured) and the name, MIME type and byte count of the upload.  A
    tool that exits 0 without leaving the output file is answered 500
    [Server error] with the message of the failed read. *)
Theorem convert_failures (host : Host) (req : ConvertRequest) (f : UploadedFile)
    (tempId : string) (fs : gmap string bytes) :
  member (js_or (query_format req) "ogg") supported_formats = true ->
  file req = Some f ->
  let i := convert_inputPath tempId (resolveInputExt f) in
  let o := outputPath tempId (js_or (query_format req) "ogg") in
  let cmd := convert_cmd i (codecArgs (js_or (query_format req) "ogg")
                              (js_or (query_bitrate req) "128k")) o in
  (forall e, write_error host i (buffer f) fs = Some e ->
      fst (convert host req tempId (start fs))
      = Return {| status := 500;
                  body := ErrorDetailsJson "Server error" (message e) |}
      /\ forall c, ~ In (EvExec c) (calls (snd (convert host req tempId (start fs)))))
  /\ (forall e fs1, write_error host i (buffer f) fs = None ->
      exec host cmd (<[i := buffer f]> fs) = (Some e, fs1) ->
      fst (convert host req tempId (start fs))
      = Return {| status := 500;
                  body := ConversionFailedJson
                            (match stderr e with
                             | Some text => if String.eqb text "" then message e else text
                             | None => message e
                             end)
                            (originalname f) (mimetype f) (length (buffer f)) |})
  /\ (forall fs1, write_error host i (buffer f) fs = None ->
      exec host cmd (<[i := buffer f]> fs) = (None, fs1) ->
      fs1 !! o = None ->
      fst (convert host req tempId (start fs))
      = Return {| status := 500;
                  body := ErrorDetailsJson "Server error"
                            ("ENOENT: no such file or directory, open '"
                             +:+ o +:+ "'") |}).
Proof.
  intros Hf Hfile i o cmd. subst i o cmd.
  rewrite (convert_unfold host req tempId f (start fs) Hf Hfile). cbn [fst snd].
  rewrite convert_try_response. cbn [files start].
  refine (conj _ (conj _ _)).
  - intros e Hw. rewrite Hw. split; [reflexivity |].
    intros c Hin. apply cleanup_calls_exec in Hin.
    unfold convert_try in Hin. unfold_fs. rewrite Hw in Hin. simpl in Hin.
    destruct Hin as [Hin | []]. discriminate Hin.
  - intros e fs1 Hw He. rewrite Hw, He. reflexivity.
  - intros fs1 Hw He Ho. rewrite Hw, He. cbv beta iota. unfold bytes in *.
    rewrite Ho. reflexivity.
Qed.

Lemma convert_failures_witness :
  fst (convert (table_host [])
         {| query_format := Some "mp3"; query_bitrate := None; file := Some upload |}
         id1 (start ∅))
  = Return {| status := 500;
              body := ConversionFailedJson "Conversion failed!"
                        (Some "voice.wav") (Some "audio/wav") 4 |}.
Proof.
  destruct (convert_failures (table_host [])
              {| query_format := Some "mp3"; query_bitrate := None;
                 file := Some upload |} upload id1 ∅ eq_refl eq_refl)
    as (_ & Htool & _).
  exact (Htool _ _ eq_refl eq_refl).
Defined.

(** ** The answers of [/convert-base64] *)

Lemma truthy_some (a : string) : a <> "" -> truthy (Some a) = true /\ js_or (Some a) "" = a.
Proof.
  intros Hne. unfold truthy, js_or.
  destruct (String.eqb_spec a ""); [contradiction | now split].
Qed.

Lemma truthy_inv (o : option string) :
  truthy o = true -> exists a, o = Some a /\ a <> "" /\ js_or o "" = a.
Proof.
  destruct o as [a|]; [| discriminate]. unfold truthy, js_or.
  destruct (String.eqb_spec a ""); [discriminate |]. eauto.
Qed.

(** X3: when [/convert-base64] answers 200, the tool exited 0 and left a
    file at the output path, and the JSON body carries that file: decoding
    the [audio] field gives its bytes back exactly, [size] is their count
    and [format] is the requested format ([ogg] when none was sent). *)
Theorem convert_base64_success (host : Host) (req : Base64Request)
    (tempId : string) (w : World) (r : Response) :
  fst (convert_base64 host req tempId w) = Return r -> status r = 200 ->
  exists audio data fs1,
    exec host
      (base64_cmd (base64_inputPath tempId)
         (codecArgs_base64 (js_default (body_format req) "ogg")
            (js_default (body_bitrate req) "128k"))
         (outputPath tempId (js_default (body_format req) "ogg")))
      (<[base64_inputPath tempId := base64_decode (js_or (body_audio req) "")]>
         (files w))
    = (None, fs1)
    /\ fs1 !! outputPath tempId (js_default (body_format req) "ogg") = Some data
    /\ body r = AudioJson audio (js_default (body_format req) "ogg") (length data)
    /\ base64_decode audio = data.
Proof.
  intros Hr Hs.
  destruct (truthy (body_audio req)) eqn:Ha.
  - rewrite (convert_base64_unfold host req tempId w Ha) in Hr. cbn [fst] in Hr.
    rewrite convert_base64_try_response in Hr. injection Hr as Hr.
    destruct (write_error host _ _ (files w)); [subst r; discriminate Hs |].
    destruct (exec host _ _) as [[e|] fs1] eqn:He; [subst r; discriminate Hs |].
    destruct (fs1 !! _) as [data|] eqn:Ho; [| subst r; discriminate Hs].
    exists (base64_encode data), data, fs1. subst r.
    repeat split; auto using base64_roundtrip.
  - rewrite (convert_base64_rejects_missing_audio host req tempId w Ha) in Hr.
    injection Hr as <-. discriminate Hs.
Qed.

Lemma convert_base64_success_witness :
  exists audio data fs1,
    exec (table_host encoder_table)
      (base64_cmd (base64_inputPath id2) "-c:a libvorbis -b:a 96k"
         (outputPath id2 "opus"))
      (<[base64_inputPath id2 := base64_decode (base64_encode sample_audio)]> ∅)
    = (None, fs1)
    /\ fs1 !! outputPath id2 "opus" = Some data
    /\ AudioJson (base64_encode vorbis_bytes) "opus" 6
       = AudioJson audio "opus" (length data)
    /\ base64_decode audio = data.
Proof.
  apply (convert_base64_success (table_host encoder_table) opus_base64 id2 (start ∅)
           {| status := 200;
              body := AudioJson (base64_encode vorbis_bytes) "opus" 6 |});
    vm_compute; reflexivity.
Defined.

Lemma base64_encode_nonempty (data : bytes) : data <> [] -> base64_encode data <> "".
Proof.
  destruct data as [|a [|b [|c r]]]; [contradiction | | |]; intros _; discriminate.
Qed.

Lemma convert_base64_try_only_write (host : Host)
    (audio format bitrate i o p : string) (d : bytes) (w : World) :
  In (EvWriteFile p d)
     (calls (snd (convert_base64_try host audio format bitrate i o w))) ->
  In (EvWriteFile p d) (calls w) \/ (p = i /\ d = base64_decode audio).
Proof.
  unfold convert_base64_try. unfold_fs. split_calls; intuition congruence.
Qed.

Lemma cleanup_calls_write (host : Host) (i o p : string) (d : bytes) (w : World) :
  In (EvWriteFile p d) (calls (snd (cleanup host i o w))) ->
  In (EvWriteFile p d) (calls w).
Proof.
  intros H. apply cleanup_calls in H as [H | [H | H]]; [exact H | |]; discriminate H.
Qed.

(** X4: what a client encodes is what the tool is given.  For a non-empty
    byte sequence sent as [audio] in base64, the handler writes exactly
    those bytes to the input path, and writes nothing else.  The empty
    byte sequence encodes to the empty string, which is answered 400 as
    missing audio without any call. *)
Theorem convert_base64_ingests (host : Host) (data : bytes)
    (format bitrate : option string) (tempId : string) (fs : gmap string bytes) :
  let req := {| body_audio := Some (base64_encode data);
                body_format := format; body_bitrate := bitrate |} in
  (data <> [] ->
   In (EvWriteFile (base64_inputPath tempId) data)
      (calls (snd (convert_base64 host req tempId (start fs))))
   /\ forall p d,
        In (EvWriteFile p d) (calls (snd (convert_base64 host req tempId (start fs)))) ->
        p = base64_inputPath tempId /\ d = data)
  /\ (data = [] ->
      convert_base64 host req tempId (start fs)
      = (Return {| status := 400; body := ErrorJson "No audio data provided" |},
         start fs)).
Proof.
  intros req. split.
  - intros Hne.
    destruct (truthy_some _ (base64_encode_nonempty data Hne)) as [Ht Hor].
    rewrite (convert_base64_unfold host req tempId (start fs) Ht). cbn [fst snd].
    cbn [body_audio body_format body_bitrate req]. rewrite Hor. split.
    + apply cleanup_calls_mono.
      rewrite <- (base64_roundtrip data) at 1. apply convert_base64_try_writes.
    + intros p d Hin. apply cleanup_calls_write in Hin.
      apply convert_base64_try_only_write in Hin as [[] | [-> ->]].
      split; [reflexivity | apply base64_roundtrip].
  - intros ->. reflexivity.
Qed.

(** ** Status codes *)

(** X5: every request is answered, with status 200, 400 or 500, and 400
    is the answer exactly when validation fails: in [/convert] an
    unsupported format or no file, in [/convert-base64] no (or an empty)
    [audio]. *)
Theorem status_400_iff_validation (host : Host) (tempId : string) (w : World) :
  (forall req : ConvertRequest,
      exists r, fst (convert host req tempId w) = Return r
        /\ (status r = 200 \/ status r = 400 \/ status r = 500)
        /\ (status r = 400 <->
            member (js_or (query_format req) "ogg") supported_formats = false
            \/ file req = None))
  /\ (forall req : Base64Request,
      exists r, fst (convert_base64 host req tempId w) = Return r
        /\ (status r = 200 \/ status r = 400 \/ status r = 500)
        /\ (status r = 400 <->
            body_audio req = None \/ body_audio req = Some "")).
Proof.
  split.
  - intros req.
    destruct (member (js_or (query_format req) "ogg") supported_formats) eqn:Hf.
    + destruct (file req) as [f|] eqn:Hfile.
      * rewrite (convert_unfold host req tempId f w Hf Hfile). cbn [fst].
        destruct (convert_try_returns host f (js_or (query_format req) "ogg")
                    (js_or (query_bitrate req) "128k")
                    (convert_inputPath tempId (resolveInputExt f))
                    (outputPath tempId (js_or (query_format req) "ogg")) w)
          as (r & Hr & Hs).
        exists r. split; [exact Hr |]. split; [tauto |].
        split; [intros H400; destruct Hs as [Hs | Hs]; rewrite Hs in H400; discriminate
               | intros [H | H]; discriminate].
      * rewrite (convert_rejects_missing_file host req tempId w Hf Hfile).
        eexists. split; [reflexivity |]. simpl. tauto.
    + rewrite (convert_rejects_unsupported host req tempId w Hf).
      eexists. split; [reflexivity |]. simpl. tauto.
  - intros req. destruct (truthy (body_audio req)) eqn:Ha.
    + destruct (convert_base64_status host req tempId w Ha) as (r & Hr & Hs).
      exists r. split; [exact Hr |]. split; [tauto |].
      destruct (truthy_inv _ Ha) as (a & Hsome & Hne & _).
      split; [intros H400; destruct Hs as [Hs | Hs]; rewrite Hs in H400; discriminate |].
      rewrite Hsome. intros [H | H]; [discriminate | congruence].
    + rewrite (convert_base64_rejects_missing_audio host req tempId w Ha).
      eexists. split; [reflexivity |]. simpl. split; [tauto |].
      split; [intros _ | reflexivity].
      destruct (body_audio req) as [a|]; [right | now left].
      unfold truthy in Ha. apply negb_false_iff, String.eqb_eq in Ha. now subst.
Qed.

(** ** The order of calls *)

Lemma cleanup_calls_shape (host : Host) (i o : string) (w : World) :
  exists post,
    calls (snd (cleanup host i o w)) = (calls w ++ post)%list
    /\ post `sublist_of` [EvUnlink i; EvUnlink o].
Proof.
  unfold_fs.
  repeat (case_bool_decide || case_match); simplify_eq;
    simpl; rewrite <- ?app_assoc; simpl;
    (first [ exists []; split; [symmetry; apply app_nil_r |]
           | eexists; split; [reflexivity |] ]);
    repeat constructor.
Qed.

(** The calls of the [try] block of [/convert], by what the host does. *)
Lemma convert_try_calls_exact (host : Host) (f : UploadedFile)
    (format bitrate i o : string) (w : World) :
  calls (snd (convert_try host f format bitrate i o w))
  = (calls w ++
     match write_error host i (buffer f) (files w) with
     | Some _ => [EvWriteFile i (buffer f)]
     | None =>
         match exec host (convert_cmd i (codecArgs format bitrate) o)
                 (<[i := buffer f]> (files w)) with
         | (Some _, _) =>
             [EvWriteFile i (buffer f);
              EvExec (convert_cmd i (codecArgs format bitrate) o)]
         | (None, _) =>
             [EvWriteFile i (buffer f);
              EvExec (convert_cmd i (codecArgs format bitrate) o);
              EvReadFile o]
         end
     end)%list.
Proof.
  unfold convert_try. unfold_fs.
  destruct (write_error host i (buffer f) (files w)); [reflexivity |]. simpl.
  destruct (exec host _ _) as [[e|] fs1]; simpl;
    [| destruct (fs1 !! o); simpl]; now rewrite <- ?app_assoc.
Qed.

Lemma convert_base64_try_calls_exact (host : Host)
    (audio format bitrate i o : string) (w : World) :
  calls (snd (convert_base64_try host audio format bitrate i o w))
  = (calls w ++
     match write_error host i (base64_decode audio) (files w) with
     | Some _ => [EvWriteFile i (base64_decode audio)]
     | None =>
         match exec host (base64_cmd i (codecArgs_base64 format bitrate) o)
                 (<[i := base64_decode audio]> (files w)) with
         | (Some _, _) =>
             [EvWriteFile i (base64_decode audio);
              EvExec (base64_cmd i (codecArgs_base64 format bitrate) o)]
         | (None, _) =>
             [EvWriteFile i (base64_decode audio);
              EvExec (base64_cmd i (codecArgs_base64 format bitrate) o);
              EvReadFile o]
         end
     end)%list.
Proof.
  unfold convert_base64_try. unfold_fs.
  destruct (write_error host i (base64_decode audio) (files w)); [reflexivity |].
  simpl.
  destruct (exec host _ _) as [[e|] fs1]; simpl;
    [| destruct (fs1 !! o); simpl]; now rewrite <- ?app_assoc.
Qed.

(** X6: the calls of a request, in order.  A request answered by
    validation makes none.  Any other request first writes its input
    file.  If that write is refused, nothing follows but deletions.  If it
    succeeds, the tool is run once, on the scratch directory with the
    input file in it; the output file is read if and only if the tool
    exited 0.  After that come the deletions, of the input path and then
    of the output path, each at most once. *)
Theorem call_order (host : Host) (tempId : string) (fs : gmap string bytes) :
  (forall req : ConvertRequest,
      member (js_or (query_format req) "ogg") supported_formats = false
      \/ file req = None ->
      calls (snd (convert host req tempId (start fs))) = [])
  /\ (forall req : Base64Request,
      body_audio req = None \/ body_audio req = Some "" ->
      calls (snd (convert_base64 host req tempId (start fs))) = [])
  /\ (forall (req : ConvertRequest) f,
      member (js_or (query_format req) "ogg") supported_formats = true ->
      file req = Some f ->
      let i := convert_inputPath tempId (resolveInputExt f) in
      let o := outputPath tempId (js_or (query_format req) "ogg") in
      let cmd := convert_cmd i (codecArgs (js_or (query_format req) "ogg")
                                  (js_or (query_bitrate req) "128k")) o in
      exists post,
        calls (snd (convert host req tempId (start fs)))
        = (match write_error host i (buffer f) fs with
           | Some _ => [EvWriteFile i (buffer f)]
           | None =>
               match exec host cmd (<[i := buffer f]> fs) with
               | (Some _, _) => [EvWriteFile i (buffer f); EvExec cmd]
               | (None, _) => [EvWriteFile i (buffer f); EvExec cmd; EvReadFile o]
               end
           end ++ post)%list
        /\ post `sublist_of` [EvUnlink i; EvUnlink o])
  /\ (forall (req : Base64Request) audio,
      body_audio req = Some audio -> audio <> "" ->
      let i := base64_inputPath tempId in
      let o := outputPath tempId (js_default (body_format req) "ogg") in
      let cmd := base64_cmd i
                   (codecArgs_base64 (js_default (body_format req) "ogg")
                      (js_default (body_bitrate req) "128k")) o in
      exists post,
        calls (snd (convert_base64 host req tempId (start fs)))
        = (match write_error host i (base64_decode audio) fs with
           | Some _ => [EvWriteFile i (base64_decode audio)]
           | None =>
               match exec host cmd (<[i := base64_decode audio]> fs) with
               | (Some _, _) => [EvWriteFile i (base64_decode audio); EvExec cmd]
               | (None, _) =>
                   [EvWriteFile i (base64_decode audio); EvExec cmd; EvReadFile o]
               end
           end ++ post)%list
        /\ post `sublist_of` [EvUnlink i; EvUnlink o]).
Proof.
  refine (conj _ (conj _ (conj _ _))).
  - intros req [Hf | Hfile].
    + now rewrite (convert_rejects_unsupported host req tempId _ Hf).
    + unfold convert. rewrite Hfile. now destruct (negb _).
  - intros req Ha. rewrite convert_base64_rejects_missing_audio; [reflexivity |].
    destruct Ha as [-> | ->]; reflexivity.
  - intros req f Hf Hfile i o cmd. subst i o cmd.
    rewrite (convert_unfold host req tempId f (start fs) Hf Hfile). cbn [snd].
    destruct (cleanup_calls_shape host
                (convert_inputPath tempId (resolveInputExt f))
                (outputPath tempId (js_or (query_format req) "ogg"))
                (snd (convert_try host f (js_or (query_format req) "ogg")
                        (js_or (query_bitrate req) "128k")
                        (convert_inputPath tempId (resolveInputExt f))
                        (outputPath tempId (js_or (query_format req) "ogg"))
                        (start fs))))
      as (post & Hpost & Hsub).
    exists post. split; [| exact Hsub].
    rewrite Hpost, convert_try_calls_exact. reflexivity.
  - intros req audio Ha Hne i o cmd. subst i o cmd.
    assert (Ht : truthy (body_audio req) = true)
      by (rewrite Ha; apply (truthy_some audio Hne)).
    assert (Hor : js_or (body_audio req) "" = audio)
      by (rewrite Ha; apply (truthy_some audio Hne)).
    rewrite (convert_base64_unfold host req tempId (start fs) Ht). cbn [snd].
    rewrite Hor.
    destruct (cleanup_calls_shape host (base64_inputPath tempId)
                (outputPath tempId (js_default (body_format req) "ogg"))
                (snd (convert_base64_try host audio
                        (js_default (body_format req) "ogg")
                        (js_default (body_bitrate req) "128k")
                        (base64_inputPath tempId)
                        (outputPath tempId (js_default (body_format req) "ogg"))
                        (start fs))))
      as (post & Hpost & Hsub).
    exists post. split; [| exact Hsub].
    rewrite Hpost, convert_base64_try_calls_exact. reflexivity.
Qed.

(** ** Other files of the scratch directory *)

Lemma cleanup_frame (host : Host) (i o p : string) (w : World) :
  p <> i -> p <> o ->
  files (snd (cleanup host i o w)) !! p = files w !! p.
Proof.
  intros Hi Ho. unfold_fs.
  repeat (case_bool_decide || case_match); simplify_eq; simpl;
    rewrite ?lookup_delete_ne by congruence; reflexivity.
Qed.

Lemma convert_try_frame (host : Host) (f : UploadedFile)
    (format bitrate i o p : string) (w : World) :
  p <> i ->
  (forall cmd fs', snd (exec host cmd fs') !! p = fs' !! p) ->
  files (snd (convert_try host f format bitrate i o w)) !! p = files w !! p.
Proof.
  intros Hi Hexec. unfold convert_try. unfold_fs.
  destruct (write_error host i (buffer f) (files w)); [reflexivity |]. simpl.
  match goal with
  | |- context [exec host ?c ?s] =>
      pose proof (Hexec c s) as E; destruct (exec host c s) as [[e|] fs1]
  end; simpl in *.
  - rewrite E. now apply lookup_insert_ne.
  - destruct (fs1 !! o); simpl; rewrite E; now apply lookup_insert_ne.
Qed.

Lemma convert_base64_try_frame (host : Host)
    (audio format bitrate i o p : string) (w : World) :
  p <> i ->
  (forall cmd fs', snd (exec host cmd fs') !! p = fs' !! p) ->
  files (snd (convert_base64_try host audio format bitrate i o w)) !! p = files w !! p.
Proof.
  intros Hi Hexec. unfold convert_base64_try. unfold_fs.
  destruct (write_error host i (base64_decode audio) (files w)); [reflexivity |]. simpl.
  match goal with
  | |- context [exec host ?c ?s] =>
      pose proof (Hexec c s) as E; destruct (exec host c s) as [[e|] fs1]
  end; simpl in *.
  - rewrite E. now apply lookup_insert_ne.
  - destruct (fs1 !! o); simpl; rewrite E; now apply lookup_insert_ne.
Qed.

(** X7: a request leaves every other file of the scratch directory as it
    was.  For a path that is neither temp path of the request and that the
    tool itself does not touch, the content after the request is the
    content before it, on every exit path and whether or not deletions
    are refused. *)
Theorem other_files_untouched (host : Host) (r : Request) (tempId p : string)
    (w : World) :
  (forall cmd fs', snd (exec host cmd fs') !! p = fs' !! p) ->
  (forall i o, temp_paths r tempId = Some (i, o) -> p <> i /\ p <> o) ->
  files (snd (handle host r tempId w)) !! p = files w !! p.
Proof.
  intros Hexec Hp. destruct r as [req | req]; unfold temp_paths, handle in *.
  - destruct (member (js_or (query_format req) "ogg") supported_formats) eqn:Hf;
      cbn [negb] in Hp.
    + destruct (file req) as [f|] eqn:Hfile.
      * destruct (Hp _ _ eq_refl) as [Hi Ho].
        rewrite (convert_unfold host req tempId f w Hf Hfile). cbn [snd].
        rewrite cleanup_frame by assumption. now apply convert_try_frame.
      * now rewrite (convert_rejects_missing_file host req tempId _ Hf Hfile).
    + now rewrite (convert_rejects_unsupported host req tempId _ Hf).
  - destruct (truthy (body_audio req)) eqn:Ha; cbn [negb] in Hp.
    + destruct (Hp _ _ eq_refl) as [Hi Ho].
      rewrite (convert_base64_unfold host req tempId w Ha). cbn [snd].
      rewrite cleanup_frame by assumption. now apply convert_base64_try_frame.
    + now rewrite (convert_base64_rejects_missing_audio host req tempId _ Ha).
Qed.

Lemma other_files_untouched_witness :
  files (snd (handle (table_host encoder_table) (ToConvert opus_upload) id1
                {| files := <["/tmp/keep.me" := sample_audio]> ∅; calls := [] |}))
    !! "/tmp/keep.me"
  = Some sample_audio.
Proof.
  rewrite (other_files_untouched (table_host encoder_table) (ToConvert opus_upload)
             id1 "/tmp/keep.me").
  - reflexivity.
  - intros cmd fs'. unfold table_host, exec, encoder_table, table_tool.
    repeat (destruct (String.eqb cmd _);
            [simpl; now rewrite lookup_insert_ne by discriminate |]).
    reflexivity.
  - intros i o [= <- <-]. split; discriminate.
Defined.

(** ** Paths stay in the scratch directory *)

Lemma has_slash_app (a b : string) :
  has_slash (a +:+ b) = has_slash a || has_slash b.
Proof.
  induction a as [|c a IH]; [reflexivity |].
  rewrite append_cons. simpl. rewrite IH. apply orb_assoc.
Qed.

Lemma uuid_no_slash (i : nat) (s : string) :
  uuid_from i s = true -> has_slash s = false.
Proof.
  revert i. induction s as [|c r IH]; intros i H; [reflexivity |].
  simpl in H. apply andb_prop in H as [Hc Hr]. simpl.
  rewrite (IH _ Hr), orb_false_r.
  destruct (Ascii.eqb_spec c "/") as [-> |]; [| reflexivity].
  repeat match type of Hc with
         | (if ?b then _ else _) = true => destruct b
         end; discriminate Hc.
Qed.

Lemma all_word_no_slash (s : string) : all_word s = true -> has_slash s = false.
Proof.
  induction s as [|c r IH]; [reflexivity |]. simpl.
  intros H. apply andb_prop in H as [Hc Hr]. rewrite (IH Hr), orb_false_r.
  destruct (Ascii.eqb_spec c "/") as [-> |]; [discriminate Hc | reflexivity].
Qed.

Lemma supported_no_slash (format : string) :
  member format supported_formats = true -> has_slash format = false.
Proof.
  intros H. unfold member, supported_formats in H. simpl in H.
  repeat (apply orb_prop in H as [H | H]; [apply String.eqb_eq in H as -> |]);
    try discriminate H; reflexivity.
Qed.

Lemma js_get_mime_no_slash (key : string) (v : jsval) :
  js_get mimeToExt key = Some v -> has_slash (js_to_string v) = false.
Proof.
  unfold js_get.
  destruct (assoc key mimeToExt) as [e|] eqn:Ha.
  - intros [= <-]. revert Ha. unfold mimeToExt. simpl.
    repeat (destruct (String.eqb key _); [now intros [= <-] |]).
    discriminate.
  - destruct (member key object_prototype_functions) eqn:Hm.
    + intros [= <-]. unfold member in Hm.
      apply existsb_exists in Hm as (k & Hin & Hk).
      apply String.eqb_eq in Hk as ->.
      simpl in Hin. repeat destruct Hin as [<- | Hin]; try reflexivity; contradiction.
    + destruct (String.eqb key "__proto__"); [| discriminate].
      now intros [= <-].
Qed.

(** Whatever the upload claims to be, the resolved extension has no
    slash in it. *)
Lemma resolveInputExt_no_slash (f : UploadedFile) :
  has_slash (js_to_string (resolveInputExt f)) = false.
Proof.
  unfold resolveInputExt.
  set (inputExt := if truthy (originalname f) then _ else _).
  assert (Hext : has_slash inputExt = false).
  { unfold inputExt. destruct (truthy (originalname f)); [| reflexivity].
    destruct (match_ext _) as [e|] eqn:Hm; [| reflexivity].
    destruct (match_ext_sound _ _ Hm) as (_ & _ & _ & Hw).
    now apply all_word_no_slash. }
  destruct (negb (js_truthy (JString inputExt)) && truthy (mimetype f));
    [| exact Hext].
  destruct (js_get mimeToExt _) as [v|] eqn:Hg; [| reflexivity].
  destruct (js_truthy v); [| reflexivity].
  exact (js_get_mime_no_slash _ _ Hg).
Qed.

(** X8: with a generated UUID as identifier, both temp paths of a
    [/convert] request are [/tmp/] followed by a name without any slash,
    whatever filename, MIME type and query the client sends: the handler
    cannot be made to name a file outside the scratch directory.  In
    [/convert-base64] this holds for the input path, while the output path
    has a slash after [/tmp/] exactly when the requested format has one. *)
Theorem temp_paths_confined (tempId : string) :
  is_uuid tempId = true ->
  (forall req i o,
      temp_paths (ToConvert req) tempId = Some (i, o) ->
      exists name_in name_out,
        i = "/tmp/" +:+ name_in /\ o = "/tmp/" +:+ name_out
        /\ has_slash name_in = false /\ has_slash name_out = false)
  /\ (forall req i o,
      temp_paths (ToBase64 req) tempId = Some (i, o) ->
      exists name_in name_out,
        i = "/tmp/" +:+ name_in /\ o = "/tmp/" +:+ name_out
        /\ has_slash name_in = false
        /\ has_slash name_out = has_slash (js_default (body_format req) "ogg")).
Proof.
  intros Hid. apply uuid_no_slash in Hid. split.
  - intros req i o. unfold temp_paths.
    destruct (member (js_or (query_format req) "ogg") supported_formats) eqn:Hf;
      [| discriminate].
    destruct (file req) as [f|]; [| discriminate]. cbn [negb].
    intros [= <- <-]. eexists _, _.
    split; [reflexivity |]. split; [reflexivity |].
    rewrite !has_slash_app, Hid, (supported_no_slash _ Hf).
    split; [| reflexivity].
    destruct (js_truthy (resolveInputExt f)); [| reflexivity].
    rewrite has_slash_app, resolveInputExt_no_slash. reflexivity.
  - intros req i o. unfold temp_paths.
    destruct (truthy (body_audio req)); [| discriminate]. cbn [negb].
    intros [= <- <-]. eexists _, _.
    split; [reflexivity |]. split; [reflexivity |].
    rewrite !has_slash_app, Hid. split; reflexivity.
Qed.

Lemma temp_paths_confined_witness :
  exists name_in name_out,
    convert_inputPath id1 (JString "wav") = "/tmp/" +:+ name_in
    /\ outputPath id1 "opus" = "/tmp/" +:+ name_out
    /\ has_slash name_in = false /\ has_slash name_out = false.
Proof.
  destruct (temp_paths_confined id1 eq_refl) as [Hconvert _].
  exact (Hconvert opus_upload _ _ eq_refl).
Defined.

(** ** A refused deletion *)

Lemma cleanup_stops (host : Host) (i o : string) (w : World) (d : bytes) (e : JsError) :
  files w !! i = Some d -> unlink_error host i (files w) = Some e ->
  cleanup host i o w = (Return tt, record (EvUnlink i) w).
Proof.
  intros Hi Hu. unfold_fs.
  rewrite bool_decide_eq_true_2 by eauto. simpl. now rewrite Hi, Hu.
Qed.

(** X9: the [finally] block gives up at the first refused deletion.  When
    [/convert] has run the tool successfully and the operating system
    refuses to delete the input file, the output file is not deleted
    either (its deletion is not even attempted): the scratch directory
    stays as the tool left it, and the response is still the 200 with the
    converted bytes. *)
Theorem refused_input_deletion_keeps_output (host : Host) (req : ConvertRequest)
    (f : UploadedFile) (tempId : string) (fs fs1 : gmap string bytes)
    (kept data : bytes) (e : JsError) :
  member (js_or (query_format req) "ogg") supported_formats = true ->
  file req = Some f ->
  let i := convert_inputPath tempId (resolveInputExt f) in
  let o := outputPath tempId (js_or (query_format req) "ogg") in
  let cmd := convert_cmd i (codecArgs (js_or (query_format req) "ogg")
                              (js_or (query_bitrate req) "128k")) o in
  write_error host i (buffer f) fs = None ->
  exec host cmd (<[i := buffer f]> fs) = (None, fs1) ->
  fs1 !! i = Some kept -> fs1 !! o = Some data ->
  unlink_error host i fs1 = Some e ->
  convert host req tempId (start fs)
  = (Return {| status := 200;
               body := AudioBody (contentType (js_or (query_format req) "ogg"))
                         (length data) data |},
     {| files := fs1;
        calls := [EvWriteFile i (buffer f); EvExec cmd; EvReadFile o; EvUnlink i] |}).
Proof.
  intros Hf Hfile i o cmd Hw He Hi Ho Hu. subst i o cmd.
  rewrite (convert_unfold host req tempId f (start fs) Hf Hfile).
  assert (Htry : convert_try host f (js_or (query_format req) "ogg")
                   (js_or (query_bitrate req) "128k")
                   (convert_inputPath tempId (resolveInputExt f))
                   (outputPath tempId (js_or (query_format req) "ogg")) (start fs)
                 = (Return {| status := 200;
                              body := AudioBody
                                        (contentType (js_or (query_format req) "ogg"))
                                        (length data) data |},
                    {| files := fs1;
                       calls := [EvWriteFile (convert_inputPath tempId (resolveInputExt f))
                                   (buffer f);
                                 EvExec (convert_cmd
                                           (convert_inputPath tempId (resolveInputExt f))
                                           (codecArgs (js_or (query_format req) "ogg")
                                              (js_or (query_bitrate req) "128k"))
                                           (outputPath tempId
                                              (js_or (query_format req) "ogg")));
                                 EvReadFile (outputPath tempId
                                               (js_or (query_format req) "ogg"))] |})).
  { unfold convert_try. unfold_fs. rewrite Hw. simpl. rewrite He. simpl.
    unfold bytes in *. rewrite Ho. reflexivity. }
  rewrite Htry. cbn [fst snd].
  rewrite (cleanup_stops host _ _ _ kept e) by assumption. reflexivity.
Qed.

Lemma refused_input_deletion_keeps_output_witness :
  convert (locked_host encoder_table (convert_inputPath id1 (JString "wav")))
    opus_upload id1 (start ∅)
  = (Return {| status := 200; body := AudioBody "audio/opus" 8 opus_bytes |},
     {| files := <[outputPath id1 "opus" := opus_bytes]>
                   (<[convert_inputPath id1 (JString "wav") := sample_audio]> ∅);
        calls := [EvWriteFile (convert_inputPath id1 (JString "wav")) sample_audio;
                  EvExec (convert_cmd (convert_inputPath id1 (JString "wav"))
                            "-c:a libopus -b:a 96k" (outputPath id1 "opus"));
                  EvReadFile (outputPath id1 "opus");
                  EvUnlink (convert_inputPath id1 (JString "wav"))] |}).
Proof.
  apply (refused_input_deletion_keeps_output
           (locked_host encoder_table (convert_inputPath id1 (JString "wav")))
           opus_upload upload id1 ∅ _ sample_audio opus_bytes
           (eperm (convert_inputPath id1 (JString "wav"))));
    reflexivity.
Defined.

(** ** The older [/convert] *)

Lemma convert_v2_unfold (host : Host) (req : ConvertRequest) (tempId : string)
    (f : UploadedFile) (w : World) :
  member (js_or (query_format req) "ogg") supported_formats = true ->
  file req = Some f ->
  let format := js_or (query_format req) "ogg" in
  let i := base64_inputPath tempId in
  let o := outputPath tempId format in
  let m := convert_v2_try host f format (js_or (query_bitrate req) "128k") i o in
  convert_v2 host req tempId w = (fst (m w), snd (cleanup host i o (snd (m w)))).
Proof.
  intros Hfmt Hfile. simpl. unfold convert_v2. rewrite Hfmt, Hfile. simpl.
  apply try_finally_cleanup.
Qed.

Lemma convert_v2_try_exec (host : Host) (f : UploadedFile)
    (format bitrate i o cmd : string) (w : World) :
  In (EvExec cmd) (calls (snd (convert_v2_try host f format bitrate i o w))) ->
  In (EvExec cmd) (calls w) \/ cmd = convert_v2_cmd i (codecArgs format bitrate) o.
Proof.
  unfold convert_v2_try. unfold_fs. split_calls; intuition congruence.
Qed.

(** X10: the older [/convert] (lines 202-274).  It answers requests that
    fail validation exactly as the current handler does.  Otherwise the
    only command line it runs is [ffmpeg -i <input> <codec args> -y
    <output> 2>&1] with bare paths, the same codec arguments and output
    path as the current handler and the extension-less input path; the
    name and MIME type of the upload have no influence on anything it
    does; a failing tool is answered 500 [Conversion failed] with the
    error's message only; and when no deletion is refused neither temp
    file is left behind. *)
Theorem older_convert (host : Host) (req : ConvertRequest) (tempId : string)
    (fs : gmap string bytes) :
  (temp_paths (ToConvert req) tempId = None ->
   convert_v2 host req tempId (start fs) = convert host req tempId (start fs))
  /\ (forall cmd,
      In (EvExec cmd) (calls (snd (convert_v2 host req tempId (start fs)))) ->
      cmd = "ffmpeg -i " +:+ base64_inputPath tempId +:+ " "
            +:+ codecArgs (js_or (query_format req) "ogg")
                  (js_or (query_bitrate req) "128k")
            +:+ " -y " +:+ outputPath tempId (js_or (query_format req) "ogg")
            +:+ " 2>&1")
  /\ (forall f name type,
      file req = Some f ->
      convert_v2 host
        {| query_format := query_format req; query_bitrate := query_bitrate req;
           file := Some {| originalname := name; mimetype := type;
                           buffer := buffer f |} |}
        tempId (start fs)
      = convert_v2 host req tempId (start fs))
  /\ (forall f e fs1,
      member (js_or (query_format req) "ogg") supported_formats = true ->
      file req = Some f ->
      write_error host (base64_inputPath tempId) (buffer f) fs = None ->
      exec host
        (convert_v2_cmd (base64_inputPath tempId)
           (codecArgs (js_or (query_format req) "ogg")
              (js_or (query_bitrate req) "128k"))
           (outputPath tempId (js_or (query_format req) "ogg")))
        (<[base64_inputPath tempId := buffer f]> fs) = (Some e, fs1) ->
      fst (convert_v2 host req tempId (start fs))
      = Return {| status := 500;
                  body := ErrorDetailsJson "Conversion failed" (message e) |})
  /\ ((forall p fs', unlink_error host p fs' = None) ->
      member (js_or (query_format req) "ogg") supported_formats = true ->
      file req <> None ->
      files (snd (convert_v2 host req tempId (start fs)))
        !! base64_inputPath tempId = None
      /\ files (snd (convert_v2 host req tempId (start fs)))
           !! outputPath tempId (js_or (query_format req) "ogg") = None).
Proof.
  refine (conj _ (conj _ (conj _ (conj _ _)))).
  - unfold temp_paths, convert_v2, convert.
    destruct (negb _); [reflexivity |].
    destruct (file req); [discriminate | reflexivity].
  - intros cmd Hin.
    destruct (member (js_or (query_format req) "ogg") supported_formats) eqn:Hf.
    + destruct (file req) as [f|] eqn:Hfile.
      * rewrite (convert_v2_unfold host req tempId f (start fs) Hf Hfile) in Hin.
        cbn [snd] in Hin. apply cleanup_calls_exec in Hin.
        now apply convert_v2_try_exec in Hin as [[] | ->].
      * unfold convert_v2 in Hin. rewrite Hf, Hfile in Hin. destruct Hin.
    + unfold convert_v2 in Hin. rewrite Hf in Hin. destruct Hin.
  - intros f name type Hfile. unfold convert_v2. cbn [query_format query_bitrate file].
    rewrite Hfile. reflexivity.
  - intros f e fs1 Hf Hfile Hw He.
    rewrite (convert_v2_unfold host req tempId f (start fs) Hf Hfile). cbn [fst].
    unfold convert_v2_try. unfold_fs. rewrite Hw. simpl. rewrite He. reflexivity.
  - intros Hu Hf Hfile. destruct (file req) as [f|] eqn:Hfile'; [| contradiction].
    rewrite (convert_v2_unfold host req tempId f (start fs) Hf Hfile'). cbn [snd].
    now apply cleanup_removes.
Qed.

(** ** Filenames and their extension *)

Lemma append_assoc (a b c : string) : (a +:+ b) +:+ c = a +:+ (b +:+ c).
Proof.
  induction a as [|x a IH]; [reflexivity |].
  rewrite !append_cons. f_equal. exact IH.
Qed.

Lemma has_dot_app (a b : string) : has_dot (a +:+ b) = has_dot a || has_dot b.
Proof.
  induction a as [|c a IH]; [reflexivity |].
  rewrite append_cons. simpl. rewrite IH. apply orb_assoc.
Qed.

Lemma all_word_no_dot (s : string) : all_word s = true -> has_dot s = false.
Proof.
  induction s as [|c r IH]; [reflexivity |]. simpl.
  intros H. apply andb_prop in H as [Hc Hr]. rewrite (IH Hr), orb_false_r.
  destruct (Ascii.eqb_spec c ".") as [-> |]; [discriminate Hc | reflexivity].
Qed.

Lemma all_word_app (a b : string) : all_word (a +:+ b) = all_word a && all_word b.
Proof.
  induction a as [|c a IH]; [reflexivity |].
  rewrite append_cons. simpl. rewrite IH. apply andb_assoc.
Qed.

Lemma append_last (a b e : string) (c : ascii) :
  a +:+ String c "" = b +:+ e -> e <> "" -> exists e0, e = e0 +:+ String c "".
Proof.
  revert a. induction b as [|y b IH]; intros a Heq Hne.
  - rewrite append_empty_l in Heq. now exists a.
  - rewrite append_cons in Heq. destruct a as [|x a].
    + rewrite append_empty_l in Heq. injection Heq as _ Heq.
      destruct b; [| discriminate Heq].
      rewrite append_empty_l in Heq. congruence.
    + rewrite append_cons in Heq. injection Heq as _ Heq. now apply (IH a).
Qed.

(** X11: how [/\.(\w+)$/] reads a filename.  A name has at most one
    extension, which is the text after its last dot and has no dot itself;
    whatever precedes the name (a directory, a drive) does not change it;
    a name without a dot has none, and neither has a name whose last
    character is not a letter, a digit or an underscore (a trailing dot,
    space or bracket), so that such uploads fall back to the MIME table. *)
Theorem filename_extension (name : string) :
  (forall e e', has_extension name e -> has_extension name e' -> e = e')
  /\ (forall e, has_extension name e -> has_dot e = false)
  /\ (forall e dir, has_extension name e -> match_ext (dir +:+ name) = Some e)
  /\ (has_dot name = false -> match_ext name = None)
  /\ (forall stem c,
        name = stem +:+ String c "" -> is_word_char c = false ->
        match_ext name = None).
Proof.
  refine (conj _ (conj _ (conj _ (conj _ _)))).
  - intros e e' H H'. apply match_ext_complete in H, H'. congruence.
  - intros e (_ & _ & _ & Hw). now apply all_word_no_dot.
  - intros e dir (stem & -> & Hne & Hw). apply match_ext_complete.
    exists (dir +:+ stem). rewrite append_assoc. now repeat split.
  - intros Hd. destruct (match_ext name) as [e|] eqn:Hm; [| reflexivity].
    destruct (match_ext_sound _ _ Hm) as (stem & -> & _ & _).
    rewrite !has_dot_app in Hd. simpl in Hd.
    rewrite orb_true_r in Hd. discriminate Hd.
  - intros stem c -> Hc.
    destruct (match_ext _) as [e|] eqn:Hm; [| reflexivity]. exfalso.
    destruct (match_ext_sound _ _ Hm) as (stem' & Heq & Hne & Hw).
    change (stem' +:+ "." +:+ e) with (stem' +:+ ("." +:+ e)) in Heq.
    rewrite <- append_assoc in Heq.
    destruct (append_last _ _ _ _ Heq Hne) as (e0 & ->).
    rewrite all_word_app in Hw. simpl in Hw. rewrite Hc in Hw.
    rewrite andb_false_r in Hw. discriminate Hw.
Qed.

(** X12: how [/convert-base64] fails apart from a failing tool.  A
    refused write of the decoded input is answered 500 with the error's
    message as [error], and the tool is not run; a tool that exits 0
    without leaving the output file is answered 500 with the message of
    the failed read.  Unlike [/convert], the body has no [details] and no
    description of the input. *)
Theorem convert_base64_failures (host : Host) (req : Base64Request)
    (audio tempId : string) (fs : gmap string bytes) :
  body_audio req = Some audio -> audio <> "" ->
  let i := base64_inputPath tempId in
  let o := outputPath tempId (js_default (body_format req) "ogg") in
  let cmd := base64_cmd i
               (codecArgs_base64 (js_default (body_format req) "ogg")
                  (js_default (body_bitrate req) "128k")) o in
  (forall e, write_error host i (base64_decode audio) fs = Some e ->
      fst (convert_base64 host req tempId (start fs))
      = Return {| status := 500; body := ErrorJson (message e) |}
      /\ forall c,
           ~ In (EvExec c) (calls (snd (convert_base64 host req tempId (start fs)))))
  /\ (forall fs1, write_error host i (base64_decode audio) fs = None ->
      exec host cmd (<[i := base64_decode audio]> fs) = (None, fs1) ->
      fs1 !! o = None ->
      fst (convert_base64 host req tempId (start fs))
      = Return {| status := 500;
                  body := ErrorJson ("ENOENT: no such file or directory, open '"
                                     +:+ o +:+ "'") |}).
Proof.
  intros Ha Hne i o cmd. subst i o cmd.
  assert (Ht : truthy (body_audio req) = true)
    by (rewrite Ha; apply (truthy_some audio Hne)).
  assert (Hor : js_or (body_audio req) "" = audio)
    by (rewrite Ha; apply (truthy_some audio Hne)).
  rewrite (convert_base64_unfold host req tempId (start fs) Ht). cbn [fst snd].
  rewrite convert_base64_try_response, Hor. cbn [files start]. split.
  - intros e Hw. rewrite Hw. split; [reflexivity |].
    intros c Hin. apply cleanup_calls_exec in Hin.
    unfold convert_base64_try in Hin. unfold_fs. rewrite Hw in Hin. simpl in Hin.
    destruct Hin as [Hin | []]. discriminate Hin.
  - intros fs1 Hw He Ho. rewrite Hw, He. cbv beta iota. unfold bytes in *.
    rewrite Ho. reflexivity.
Qed.

Lemma convert_base64_failures_witness :
  fst (convert_base64 silent_host garbage_base64 id1 (start ∅))
  = Return {| status := 500;
              body := ErrorJson ("ENOENT: no such file or directory, open '"
                                 +:+ outputPath id1 "ogg" +:+ "'") |}.
Proof.
  destruct (convert_base64_failures silent_host garbage_base64 "%%%%" id1 ∅
              eq_refl ltac:(discriminate)) as [_ Hmissing].
  exact (Hmissing _ eq_refl eq_refl eq_refl).
Defined.

(** ** Base64 text with code units above 255 *)

Lemma low_byte_of_ascii (c : ascii) : low_byte (N_of_ascii c) = c.
Proof.
  unfold low_byte. change 255%N with (N.ones 8). rewrite N.land_ones.
  rewrite N.mod_small by apply N_ascii_bounded. apply ascii_N_embedding.
Qed.

Lemma low_bytes_code_units (s : string) : low_bytes (code_units s) = s.
Proof.
  induction s as [|c r IH]; [reflexivity |]. simpl.
  now rewrite low_byte_of_ascii, IH.
Qed.



(** The handler on code units is the handler on the low bytes. *)
Lemma convert_base64_units_narrow (host : Host) (req : Base64Body)
    (tempId : string) (w : World) :
  convert_base64_units host req tempId w = convert_base64 host (narrow req) tempId w.
Proof.
  unfold convert_base64_units, convert_base64, narrow. simpl.
  destruct (audio_units req) as [[|u s]|]; reflexivity.
Qed.

(** On a request of 8-bit characters the two handlers are the same. *)
Lemma convert_base64_units_widen (host : Host) (req : Base64Request)
    (tempId : string) (w : World) :
  convert_base64_units host (widen req) tempId w = convert_base64 host req tempId w.
Proof.
  rewrite convert_base64_units_narrow. f_equal.
  destruct req as [[a|] f b]; unfold narrow, widen; simpl;
    [now rewrite low_bytes_code_units | reflexivity].
Qed.



